(** * deliveryoptimizer-api: the request pipeline of [server.py]

    A shallow embedding of the validation, translation, solver
    orchestration, reconciliation and health-check code of
    [services/deliveryoptimizer-api/server.py], and the properties of the
    design document checked against it.

    Python values are modelled as they come out of [json.loads]; Python
    exceptions are results in an error monad; the scratch directory and
    the outcome of the external processes are explicit inputs. *)

From Stdlib Require Import ZArith QArith String Ascii List Lia Bool.
From stdpp Require Import base option list gmap strings pretty.

Set Warnings "-register-all".
Local Open Scope Z_scope.

(** ** Python values *)

Module Py.

(** A Python [float]: the finite ones by their exact rational value (every
    binary64 number is a rational; the two zeros are identified), and the
    three special values, which [json.loads] accepts as [NaN], [Infinity]
    and [-Infinity]. *)
Inductive pyfloat : Type :=
  | FNum (q : Q)
  | FNaN
  | FPosInf
  | FNegInf.

(** The values [json.loads] returns.  A [dict] keeps its insertion order
    and is an association list; [get] reads the first binding of a key and
    item assignment overwrites it in place, so a list with unique keys
    stays one.  Characters of a [str] are the code points below 256. *)
Inductive json : Type :=
  | JNull
  | JBool (b : bool)
  | JInt (z : Z)
  | JFloat (f : pyfloat)
  | JStr (s : string)
  | JList (items : list json)
  | JDict (fields : list (string * json)).

(** The exceptions the code can raise: the class, and the text [str(err)]
    gives.  [RuntimeError] stands for the runtime errors that are no
    [RecursionError], its subclass; [OSError] for the operating-system
    errors that are none of its subclasses listed after it. *)
Inductive exn_class : Type :=
  | TypeError
  | AttributeError
  | KeyError
  | ValueError
  | JSONDecodeError
  | UnicodeDecodeError
  | RuntimeError
  | RecursionError
  | TimeoutExpired
  | OSError
  | HTTPError
  | URLError
  | TimeoutError.

Record exn : Type := Exn { class : exn_class; message : string }.

Inductive result (A : Type) : Type :=
  | Ok (a : A)
  | Raise (e : exn).
Arguments Ok {A} a.
Arguments Raise {A} e.

#[global] Instance result_ret : MRet result := fun A a => Ok a.
#[global] Instance result_bind : MBind result := fun A B k m =>
  match m with
  | Ok a => k a
  | Raise e => Raise e
  end.

Definition raise {A : Type} (c : exn_class) (msg : string) : result A :=
  Raise (Exn c msg).

(** [[f(x) for x in items]], stopping at the first exception. *)
Fixpoint mapM {A B : Type} (f : A -> result B) (items : list A)
  : result (list B) :=
  match items with
  | [] => Ok []
  | x :: rest => y ← f x; ys ← mapM f rest; Ok (y :: ys)
  end.

(** A loop [for x in items: st = body(st, x)] over a state. *)
Fixpoint foldM {A S : Type} (body : S -> A -> result S) (st : S)
  (items : list A) : result S :=
  match items with
  | [] => Ok st
  | x :: rest => st' ← body st x; foldM body st' rest
  end.

(** [enumerate(items, start)]. *)
Fixpoint enumerate {A : Type} (start : Z) (items : list A) : list (Z * A) :=
  match items with
  | [] => []
  | x :: rest => (start, x) :: enumerate (start + 1) rest
  end.

(** *** Dictionaries *)

Fixpoint dict_get (key : string) (fields : list (string * json))
  : option json :=
  match fields with
  | [] => None
  | (k, v) :: rest => if decide (k = key) then Some v else dict_get key rest
  end.

(** [d[key] = value]: overwrite the binding where it stands, or append. *)
Fixpoint dict_set (key : string) (value : json)
  (fields : list (string * json)) : list (string * json) :=
  match fields with
  | [] => [(key, value)]
  | (k, v) :: rest =>
      if decide (k = key) then (k, value) :: rest
      else (k, v) :: dict_set key value rest
  end.

(** [key in d] for a dictionary [d]. *)
Definition dict_has (key : string) (fields : list (string * json)) : bool :=
  bool_decide (is_Some (dict_get key fields)).

(** [obj.get(key, default)]: only a [dict] has the method. *)
Definition py_get (obj : json) (key : string) (dflt : json) : result json :=
  match obj with
  | JDict fields => Ok (default dflt (dict_get key fields))
  | _ => raise AttributeError "object has no attribute 'get'"
  end.

(** [obj[key]] for a string [key]. *)
Definition py_getitem (obj : json) (key : string) : result json :=
  match obj with
  | JDict fields =>
      match dict_get key fields with
      | Some v => Ok v
      | None => raise KeyError key
      end
  | _ => raise TypeError "object is not subscriptable by a string"
  end.

(** The characters of a [str], each a [str] of length one. *)
Fixpoint chars (s : string) : list json :=
  match s with
  | EmptyString => []
  | String c rest => JStr (String c EmptyString) :: chars rest
  end.

(** What [for x in obj] runs over: the items of a list, the keys of a
    dictionary, the characters of a string. *)
Definition py_iter (obj : json) : result (list json) :=
  match obj with
  | JList items => Ok items
  | JDict fields => Ok (map (fun kv => JStr (fst kv)) fields)
  | JStr s => Ok (chars s)
  | _ => raise TypeError "object is not iterable"
  end.

(** *** Numbers *)

(** [isinstance(v, int)] with the integer [v] stands for: [bool] is a
    subclass of [int], [True] is 1 and [False] is 0. *)
Definition as_int (v : json) : option Z :=
  match v with
  | JInt z => Some z
  | JBool b => Some (if b then 1 else 0)
  | _ => None
  end.

Inductive number : Type :=
  | NInt (z : Z)
  | NFloat (f : pyfloat).

(** [isinstance(v, (int, float))] with the number [v] stands for. *)
Definition as_number (v : json) : option number :=
  match v with
  | JFloat f => Some (NFloat f)
  | _ => NInt <$> as_int v
  end.

(** [c <= x] and [x <= c] for an integer constant [c]; Python compares an
    [int] with a [float] exactly, and every comparison with NaN is false. *)
Definition int_le_number (c : Z) (x : number) : bool :=
  match x with
  | NInt z => bool_decide (c ≤ z)%Z
  | NFloat (FNum q) => Qle_bool (inject_Z c) q
  | NFloat FPosInf => true
  | NFloat _ => false
  end.

Definition number_le_int (x : number) (c : Z) : bool :=
  match x with
  | NInt z => bool_decide (z ≤ c)%Z
  | NFloat (FNum q) => Qle_bool q (inject_Z c)
  | NFloat FNegInf => true
  | NFloat _ => false
  end.

(** The integer a dictionary with [int] keys files [v] under ([hash] and
    [==] agree on [1], [1.0] and [True]); lists and dictionaries are
    unhashable. *)
Definition int_key (v : json) : result (option Z) :=
  match v with
  | JInt _ | JBool _ => Ok (as_int v)
  | JFloat (FNum q) =>
      Ok (if decide ((Qnum q mod Zpos (Qden q))%Z = 0%Z)
          then Some (Qnum q / Zpos (Qden q))%Z else None)
  | JFloat _ | JStr _ | JNull => Ok None
  | JList _ | JDict _ => raise TypeError "unhashable type"
  end.

(** [m.get(v)] after [v in m], for an identity map [m]. *)
Definition map_find (v : json) (m : gmap Z string) : result (option string) :=
  k ← int_key v; Ok (k ≫= fun i => m !! i).

(** *** Strings *)

(** [str.isspace] on the code points below 256. *)
Definition is_space (c : ascii) : bool :=
  let n := nat_of_ascii c in
  bool_decide (9 ≤ n ≤ 13 ∨ 28 ≤ n ≤ 32 ∨ n = 133 ∨ n = 160)%nat.

Fixpoint lstrip (cs : list ascii) : list ascii :=
  match cs with
  | c :: rest => if is_space c then lstrip rest else cs
  | [] => []
  end.

(** [s.strip()]. *)
Definition strip (s : string) : string :=
  string_of_list_ascii
    (rev (lstrip (rev (lstrip (list_ascii_of_string s))))).

(** [str.isdigit] on the code points below 256: the ten digits and the
    superscripts two, three and one. *)
Definition is_digit_char (c : ascii) : bool :=
  let n := nat_of_ascii c in
  bool_decide (48 ≤ n ≤ 57 ∨ n = 178 ∨ n = 179 ∨ n = 185)%nat.

Definition isdigit (s : string) : bool :=
  match list_ascii_of_string s with
  | [] => false
  | cs => forallb is_digit_char cs
  end.

(** [int(s)] for an [s] that passed [isdigit]: the superscripts are no
    decimal digits. *)
Definition py_int (s : string) : result unit :=
  if forallb (fun c => bool_decide (48 ≤ nat_of_ascii c ≤ 57)%nat)
       (list_ascii_of_string s)
  then Ok ()
  else raise ValueError "invalid literal for int()".

Section Str.
(** [repr] of a float, a list or a dictionary: the interpreter's, not
    the program's. *)
Variable py_repr : json -> string.

(** [str(v)]. *)
Definition py_str (v : json) : string :=
  match v with
  | JStr s => s
  | JInt z => pretty z
  | JBool b => if b then "True" else "False"
  | JNull => "None"
  | JFloat _ | JList _ | JDict _ => py_repr v
  end.
End Str.

End Py.

Import Py.

(** ** Coordinate and time-window checks, payload validator *)

(** [is_coord(value)]. *)
Definition is_coord (value : json) : bool :=
  match value with
  | JList [lon; lat] =>
      match as_number lon, as_number lat with
      | Some lon, Some lat =>
          int_le_number (-180) lon && number_le_int lon 180
          && int_le_number (-90) lat && number_le_int lat 90
      | _, _ => false
      end
  | _ => false
  end.

(** The test both time-window checks negate: a list of two [int]s
    [[start, end]] with [start <= end]. *)
Definition is_time_window (tw : json) : bool :=
  match tw with
  | JList [lo; hi] =>
      match as_int lo, as_int hi with
      | Some lo, Some hi => bool_decide (lo ≤ hi)%Z
      | _, _ => false
      end
  | _ => false
  end.

(** [d.get(key)], [None] when the key is missing. *)
Definition get_or_none (key : string) (fields : list (string * json)) : json :=
  default JNull (dict_get key fields).

(** [if cond: errors.append(msg)]. *)
Definition append_if (cond : bool) (msg : string) : list string :=
  if cond then [msg] else [].

(** [isinstance(v, int) and v > 0], negated by the capacity and demand
    checks. *)
Definition is_positive_int (v : json) : bool :=
  match as_int v with
  | Some z => bool_decide (0 < z)%Z
  | None => false
  end.

(** The body of the loop over [vehicles]. *)
Definition validate_vehicle (idx : Z) (vehicle : json) : list string :=
  let at_ := "`vehicles[" +:+ pretty idx +:+ "]" in
  match vehicle with
  | JDict fields =>
      append_if (negb (is_positive_int (get_or_none "capacity" fields)))
        (at_ +:+ ".capacity` must be a positive integer.")
      ++ append_if (dict_has "start" fields
                    && negb (is_coord (get_or_none "start" fields)))
           (at_ +:+ ".start` must be [lon, lat].")
      ++ append_if (dict_has "end" fields
                    && negb (is_coord (get_or_none "end" fields)))
           (at_ +:+ ".end` must be [lon, lat].")
      ++ append_if (dict_has "time_window" fields
                    && negb (is_time_window (get_or_none "time_window" fields)))
           (at_ +:+ ".time_window` must be [start, end] in epoch seconds.")
  | _ => [at_ +:+ "` must be an object."]
  end.

(** The check of a job's [service]: skipped for [None]. *)
Definition service_ok (service : json) : bool :=
  match service with
  | JNull => true
  | _ => match as_int service with
         | Some z => bool_decide (0 ≤ z)%Z
         | None => false
         end
  end.

(** The check of a job's [time_windows] when the key is there: at most one
    message, the scan stops at the first bad entry. *)
Definition time_windows_errors (at_ : string) (tws : json) : list string :=
  match tws with
  | JList ((_ :: _) as entries) =>
      append_if (existsb (fun tw => negb (is_time_window tw)) entries)
        (at_ +:+ ".time_windows` entries must be [start, end] epoch seconds.")
  | _ => [at_ +:+ ".time_windows` must be a non-empty array of [start, end]."]
  end.

(** The body of the loop over [jobs]. *)
Definition validate_job (idx : Z) (job : json) : list string :=
  let at_ := "`jobs[" +:+ pretty idx +:+ "]" in
  match job with
  | JDict fields =>
      append_if (negb (is_coord (get_or_none "location" fields)))
        (at_ +:+ ".location` must be [lon, lat].")
      ++ append_if (negb (is_positive_int
                            (default (JInt 1) (dict_get "demand" fields))))
           (at_ +:+ ".demand` must be a positive integer.")
      ++ append_if (negb (service_ok (get_or_none "service" fields)))
           (at_ +:+ ".service` must be a non-negative integer in seconds.")
      ++ (if dict_has "time_windows" fields
          then time_windows_errors at_ (get_or_none "time_windows" fields)
          else [])
  | _ => [at_ +:+ "` must be an object."]
  end.

(** [validate_payload(payload)]: the list of messages, in order. *)
Definition validate_payload (payload : json) : list string :=
  match payload with
  | JDict fields =>
      (match get_or_none "depot" fields with
       | JDict depot =>
           append_if (negb (is_coord (get_or_none "location" depot)))
             "`depot.location` must be [lon, lat]."
       | _ => ["`depot` is required and must be an object."]
       end)
      ++ (match get_or_none "vehicles" fields with
          | JList ((_ :: _) as vehicles) =>
              flat_map (fun iv => validate_vehicle (fst iv) (snd iv))
                (enumerate 1 vehicles)
          | _ => ["`vehicles` is required and must be a non-empty array."]
          end)
      ++ (match get_or_none "jobs" fields with
          | JList ((_ :: _) as jobs) =>
              flat_map (fun ij => validate_job (fst ij) (snd ij))
                (enumerate 1 jobs)
          | _ => ["`jobs` is required and must be a non-empty array."]
          end)
  | _ => ["Payload must be a JSON object."]
  end.

(** ** Schema translator and identity maps *)

Section Translator.
Variable py_repr : json -> string.

(** The body of the loop over [payload["vehicles"]]: the state is
    [(vroom_vehicles, vehicle_map)]. *)
Definition translate_vehicle (depot_location : json)
  (st : list json * gmap Z string) (iv : Z * json)
  : result (list json * gmap Z string) :=
  let '(vroom_vehicles, vehicle_map) := st in
  let '(idx, vehicle) := iv in
  id ← py_get vehicle "id" (JStr ("vehicle-" +:+ pretty idx));
  let vehicle_map := <[idx := py_str py_repr id]> vehicle_map in
  capacity ← py_getitem vehicle "capacity";
  start ← py_get vehicle "start" depot_location;
  end_ ← py_get vehicle "end" depot_location;
  let entry := [("id", JInt idx); ("capacity", JList [capacity]);
                ("start", start); ("end", end_)] in
  tw ← py_get vehicle "time_window" JNull;
  let entry := match tw with
               | JNull => entry
               | _ => dict_set "time_window" tw entry
               end in
  Ok (vroom_vehicles ++ [JDict entry], vehicle_map).

(** The body of the loop over [payload["jobs"]]. *)
Definition translate_job (st : list json * gmap Z string) (ij : Z * json)
  : result (list json * gmap Z string) :=
  let '(vroom_jobs, job_map) := st in
  let '(idx, job) := ij in
  id ← py_get job "id" (JStr ("job-" +:+ pretty idx));
  let job_map := <[idx := py_str py_repr id]> job_map in
  demand ← py_get job "demand" (JInt 1);
  location ← py_getitem job "location";
  service ← py_get job "service" (JInt 300);
  let entry := [("id", JInt idx); ("location", location);
                ("service", service); ("delivery", JList [demand])] in
  tws ← py_get job "time_windows" JNull;
  let entry := match tws with
               | JNull => entry
               | _ => dict_set "time_windows" tws entry
               end in
  Ok (vroom_jobs ++ [JDict entry], job_map).

(** [build_vroom_request(payload)]: the solver request, the vehicle map
    and the job map. *)
Definition build_vroom_request (payload : json)
  : result (json * gmap Z string * gmap Z string) :=
  depot ← py_getitem payload "depot";
  depot_location ← py_getitem depot "location";
  vehicles ← py_getitem payload "vehicles" ≫= py_iter;
  '(vroom_vehicles, vehicle_map) ←
    foldM (translate_vehicle depot_location) ([], ∅) (enumerate 1 vehicles);
  jobs ← py_getitem payload "jobs" ≫= py_iter;
  '(vroom_jobs, job_map) ← foldM translate_job ([], ∅) (enumerate 1 jobs);
  Ok (JDict [("vehicles", JList vroom_vehicles); ("jobs", JList vroom_jobs)],
      vehicle_map, job_map).
End Translator.

(** ** Result reconciler *)

(** One lookup-and-annotate step, the same for a route's vehicle, a step's
    job and an unassigned entry:
    [internal = entry.get(key); if internal in ids: entry[tag] = ids[internal]].
    The value is the entry after the assignment. *)
Definition annotate (key tag : string) (ids : gmap Z string) (entry : json)
  : result json :=
  internal ← py_get entry key JNull;
  found ← map_find internal ids;
  match found, entry with
  | Some external, JDict fields => Ok (JDict (dict_set tag (JStr external) fields))
  | _, _ => Ok entry
  end.

(** [for x in obj.get(key, []): body(x)] where [body] assigns into [x]: the
    value of [obj] after the loop.  The items of a list are the objects the
    loop updates; a missing key is the fresh empty list; the keys of a
    dictionary and the characters of a string are run over all the same. *)
Definition for_each_in (key : string) (body : json -> result json) (obj : json)
  : result json :=
  match obj with
  | JDict fields =>
      match dict_get key fields with
      | None => Ok obj
      | Some (JList items) =>
          items' ← mapM body items;
          Ok (JDict (dict_set key (JList items') fields))
      | Some other => items ← py_iter other; _ ← mapM body items; Ok obj
      end
  | _ => raise AttributeError "object has no attribute 'get'"
  end.

(** The body of the loop over the routes. *)
Definition annotate_route (vehicle_map job_map : gmap Z string) (route : json)
  : result json :=
  route ← annotate "vehicle" "vehicle_external_id" vehicle_map route;
  for_each_in "steps" (annotate "job" "job_external_id" job_map) route.

(** [add_external_ids(solution, vehicle_map, job_map)]: the function
    updates [solution] in place and returns that same object, so the value
    here is what every name of the solver's output denotes afterwards. *)
Definition add_external_ids (solution : json)
  (vehicle_map job_map : gmap Z string) : result json :=
  solution ← for_each_in "routes" (annotate_route vehicle_map job_map) solution;
  for_each_in "unassigned" (annotate "id" "job_external_id" job_map) solution.

(** ** Solver orchestrator *)

(** What [subprocess.run] does with the solver: the process ends and its
    captured streams decode as text (exit code, output, error text, and
    what [json.loads] makes of the output: the value, or the exception it
    raises, a [JSONDecodeError] for a text that is no JSON, a
    [RecursionError] for one nested too deep, a [ValueError] for a number
    beyond the digit limit); the process ends and a captured stream is not
    text in the expected encoding, so that [subprocess.run] raises a
    [UnicodeDecodeError]; the process is killed at the timeout; or it
    cannot be started. *)
Inductive solver_outcome : Type :=
  | Completed (returncode : Z) (stdout stderr : string) (decoded : result json)
  | Undecodable
  | Expired
  | NotStarted.

(** [os.unlink(path)] on the scratch directory. *)
Definition unlink (path : string) (files : gmap string json)
  : result unit * gmap string json :=
  match files !! path with
  | Some _ => (Ok (), delete path files)
  | None => (raise OSError "No such file or directory", files)
  end.

(** [run_vroom(vroom_request)], on the scratch directory [files];
    [input_path] is the name [NamedTemporaryFile] picks. *)
Definition run_vroom (input_path : string) (solver : solver_outcome)
  (vroom_request : json) (files : gmap string json)
  : result json * gmap string json :=
  let files := <[input_path := vroom_request]> files in
  (* try: result = subprocess.run(...) *)
  let result : result (Z * string * string * result json) :=
    match solver with
    | Completed returncode stdout stderr decoded =>
        Ok (returncode, stdout, stderr, decoded)
    | Undecodable =>
        raise UnicodeDecodeError "'utf-8' codec can't decode byte"
    | Expired => raise TimeoutExpired "Command timed out"
    | NotStarted => raise OSError "No such file or directory"
    end in
  (* finally: try: os.unlink(input_path) except OSError: pass *)
  let files := snd (unlink input_path files) in
  (( '(returncode, stdout, stderr, decoded) ← result;
     if decide (returncode ≠ 0) then
       let stderr := strip stderr in
       raise RuntimeError
         (if decide (stderr = EmptyString) then "Unknown VROOM error" else stderr)
     else if decide (strip stdout = EmptyString) then
       raise RuntimeError "VROOM returned no output."
     else decoded ),
   files).

(** ** HTTP handlers *)

Record response : Type :=
  Response { status_code : Z; body : json }.

(** [json_response(handler, status_code, payload)]: the response sent. *)
Definition json_response (status_code : Z) (payload : json) : response :=
  Response status_code payload.

(** An optimize request: the [Content-Length] header (the empty string when missing),
    and what reading and decoding the body gives. *)
Record request : Type :=
  Request { content_length : string; decoded_body : result json }.

Section Optimize.
Variable py_repr : json -> string.

(** The three calls of the [try] block of [handle_optimize]. *)
Definition solve (input_path : string) (solver : solver_outcome)
  (payload : json) (files : gmap string json)
  : result json * gmap string json :=
  match build_vroom_request py_repr payload with
  | Raise e => (Raise e, files)
  | Ok (vroom_request, vehicle_map, job_map) =>
      let '(solution, files) :=
        run_vroom input_path solver vroom_request files in
      (solution ← solution; add_external_ids solution vehicle_map job_map,
       files)
  end.

(** The [except] clauses of [handle_optimize]: the response to a failure of
    the [try] block, or the exception when no clause catches it. *)
Definition solver_failure (e : exn) : result response :=
  match class e with
  | TimeoutExpired =>
      Ok (json_response 504
            (JDict [("error", JStr "Optimization timed out.")]))
  | RuntimeError | RecursionError =>
      Ok (json_response 502
            (JDict [("error", JStr "VROOM optimization failed.");
                    ("details", JStr (message e))]))
  | JSONDecodeError =>
      Ok (json_response 502
            (JDict [("error", JStr "VROOM returned invalid JSON.")]))
  | _ => Raise e
  end.

(** [RoutingHandler.handle_optimize]: the response, or the exception
    that escapes the handler, and the scratch directory afterwards. *)
Definition handle_optimize (req : request) (input_path : string)
  (solver : solver_outcome) (files : gmap string json)
  : result response * gmap string json :=
  if negb (isdigit (content_length req)) then
    (Ok (json_response 400
           (JDict [("error", JStr "Content-Length header must be set.")])),
     files)
  else
    match py_int (content_length req), decoded_body req with
    | Raise e, _ => (Raise e, files)
    | Ok _, Raise e =>
        match class e with
        | UnicodeDecodeError | JSONDecodeError =>
            (Ok (json_response 400
                   (JDict [("error", JStr "Request body must be valid JSON.")])),
             files)
        | _ => (Raise e, files)
        end
    | Ok _, Ok payload =>
        match validate_payload payload with
        | (_ :: _) as errors =>
            (Ok (json_response 400
                   (JDict [("error", JStr "Validation failed.");
                           ("issues", JList (JStr <$> errors))])),
             files)
        | [] =>
            let '(solution, files) := solve input_path solver payload files in
            (match solution with
             | Ok solution =>
                 summary ← py_get solution "summary" (JDict []);
                 routes ← py_get solution "routes" (JList []);
                 unassigned ← py_get solution "unassigned" (JList []);
                 Ok (json_response 200
                       (JDict [("status", JStr "ok"); ("summary", summary);
                               ("routes", routes); ("unassigned", unassigned);
                               ("raw", solution)]))
             | Raise e => solver_failure e
             end,
             files)
        end
    end.
End Optimize.

(** What the probe of the routing engine meets: [urlopen] or the read
    raises, or a response arrives with a status and a body ([json.loads]
    of the decoded body, or the exception of the decoding). *)
Inductive probe_outcome : Type :=
  | ProbeRaised (e : exn)
  | ProbeAnswered (status : Z) (payload : result json).

(** [check_osrm()]: readiness and the detail. *)
Definition check_osrm (probe : probe_outcome) : result (bool * json) :=
  match probe with
  | ProbeRaised e => Raise e
  | ProbeAnswered status payload =>
      if decide (status ≠ 200) then Ok (false, JStr ("HTTP " +:+ pretty status))
      else
        payload ← payload;
        code ← py_get payload "code" JNull;
        detail ← py_get payload "code" (JStr "unknown");
        Ok (match code with
            | JStr s => bool_decide (s = "Ok")
            | _ => false
            end, detail)
  end.

(** [RoutingHandler.handle_health]; [vroom_ready] is
    [os.path.exists(VROOM_BIN)]. *)
Definition handle_health (vroom_ready : bool) (probe : probe_outcome)
  : result response :=
  '(osrm_ready, detail) ←
    match check_osrm probe with
    | Ok checked => Ok checked
    | Raise e =>
        match class e with
        | HTTPError | URLError | TimeoutError | JSONDecodeError =>
            Ok (false, JStr (message e))
        | _ => Raise e
        end
    end;
  let overall_ready := vroom_ready && osrm_ready in
  let status_code := if overall_ready then 200 else 503 in
  let status_text := if overall_ready then "ok" else "degraded" in
  Ok (json_response status_code
        (JDict [("status", JStr status_text);
                ("checks",
                 JDict [("vroom_binary",
                         JStr (if vroom_ready then "ok" else "missing"));
                        ("osrm", JStr (if osrm_ready then "ok" else "down"));
                        ("osrm_detail", detail)])])).

(** ** Proxy to the routing engine, dispatch by path *)

(** What goes out on the wire: the status line, the [Content-Type] header
    and the body, either bytes passed on or the JSON document that
    [json.dumps] encodes. *)
Inductive wire_body : Type :=
  | JsonBody (document : json)
  | RawBody (bytes : string).

Record reply : Type :=
  Reply { reply_status : Z; reply_content_type : string;
          reply_body : wire_body }.

(** The headers and the body [json_response] writes. *)
Definition sent (r : response) : reply :=
  Reply (status_code r) "application/json" (JsonBody (body r)).

(** What [urlopen] raises at the routing engine: an [HTTPError] (code,
    body, and the headers, which may be [None], with their [Content-Type]
    if any), or another exception. *)
Inductive urlopen_error : Type :=
  | Refused (code : Z) (bytes : string) (headers : option (option string))
  | Failed (e : exn).

(** What [urlopen] meets at the routing engine: a response (status, body,
    [Content-Type] header if any), or an exception. *)
Inductive upstream_outcome : Type :=
  | Answered (status : Z) (bytes : string) (content_type : option string)
  | Raised (err : urlopen_error).

(** [proxy_to_osrm(path_and_query)]: the triple it returns, or the
    exception of [urlopen], which passes through it. *)
Definition proxy_to_osrm (upstream : upstream_outcome)
  : (Z * string * string) + urlopen_error :=
  match upstream with
  | Answered status bytes content_type =>
      inl (status, bytes, default "application/json" content_type)
  | Raised err => inr err
  end.

(** [RoutingHandler.handle_osrm_proxy]. *)
Definition handle_osrm_proxy (upstream : upstream_outcome) : result reply :=
  match proxy_to_osrm upstream with
  | inl (status, bytes, content_type) =>
      Ok (Reply status content_type (RawBody bytes))
  | inr (Refused code bytes headers) =>
      let body :=
        if decide (bytes = EmptyString)
        then JsonBody (JDict [("error", JStr "OSRM upstream returned an error.")])
        else RawBody bytes in
      let content_type :=
        match headers with
        | Some header => default "application/json" header
        | None => "application/json"
        end in
      Ok (Reply code content_type body)
  | inr (Failed e) =>
      match class e with
      | URLError | TimeoutError =>
          Ok (sent (json_response 502
                      (JDict [("error", JStr "OSRM upstream unavailable.");
                              ("details", JStr (message e))])))
      | _ => Raise e
      end
  end.

(** [s] without the leading [prefix], when it starts with it. *)
Fixpoint strip_prefix (prefix s : string) : option string :=
  match prefix, s with
  | EmptyString, _ => Some s
  | String a prefix', String b s' =>
      if decide (a = b) then strip_prefix prefix' s' else None
  | String _ _, EmptyString => None
  end.

(** [s.startswith(prefix)] and [s.removeprefix(prefix)]. *)
Definition startswith (s prefix : string) : bool :=
  bool_decide (is_Some (strip_prefix prefix s)).

Definition removeprefix (s prefix : string) : string :=
  default s (strip_prefix prefix s).

(** The parts of [urlparse(self.path)] the handlers read. *)
Record parsed_url : Type :=
  Parsed { url_path : string; url_params : string; url_query : string }.

(** The path and query [do_GET] asks the routing engine for. *)
Definition upstream_path (parsed : parsed_url) : string :=
  let upstream_path := removeprefix (url_path parsed) "/api/v1/osrm" in
  let upstream_path :=
    if decide (url_params parsed = EmptyString) then upstream_path
    else upstream_path +:+ ";" +:+ url_params parsed in
  if decide (url_query parsed = EmptyString) then upstream_path
  else upstream_path +:+ "?" +:+ url_query parsed.

(** [RoutingHandler.do_GET]; [upstream] is the routing engine as a function
    of the path and query it is asked for. *)
Definition do_GET (parsed : parsed_url) (vroom_ready : bool)
  (probe : probe_outcome) (upstream : string -> upstream_outcome)
  : result reply :=
  if decide (url_path parsed = "/health") then
    resp ← handle_health vroom_ready probe; Ok (sent resp)
  else if startswith (url_path parsed) "/api/v1/osrm/" then
    handle_osrm_proxy (upstream (upstream_path parsed))
  else
    Ok (sent (json_response 404
                (JDict [("error", JStr "Not found.");
                        ("available_endpoints",
                         JList [JStr "GET /health";
                                JStr "POST /api/v1/deliveries/optimize";
                                JStr "GET /api/v1/osrm/*"])]))).

Section Post.
Variable py_repr : json -> string.

(** [RoutingHandler.do_POST]. *)
Definition do_POST (parsed : parsed_url) (req : request)
  (input_path : string) (solver : solver_outcome)
  (files : gmap string json) : result reply * gmap string json :=
  if decide (url_path parsed = "/api/v1/deliveries/optimize") then
    let '(outcome, files) :=
      handle_optimize py_repr req input_path solver files in
    (resp ← outcome; Ok (sent resp), files)
  else
    (Ok (sent (json_response 404 (JDict [("error", JStr "Not found.")]))),
     files).
End Post.

(** * Vocabulary of the properties *)

(** A JSON number, as opposed to a boolean. *)
Definition json_number (v : json) : Prop :=
  match v with
  | JInt _ | JFloat _ => True
  | _ => False
  end.

(** A coordinate component between [lo] and [hi]: an integer, a finite
    float, or a boolean counted as 1 or 0. *)
Inductive component_within (lo hi : Z) : json -> Prop :=
  | within_int (z : Z) :
      (lo ≤ z ≤ hi)%Z -> component_within lo hi (JInt z)
  | within_float (q : Q) :
      (inject_Z lo <= q)%Q -> (q <= inject_Z hi)%Q ->
      component_within lo hi (JFloat (FNum q))
  | within_bool (b : bool) :
      (lo ≤ (if b then 1 else 0) ≤ hi)%Z -> component_within lo hi (JBool b).

(** The object [obj] is a dictionary with the key [key]. *)
Definition has_field (key : string) (obj : json) : Prop :=
  exists fields v, obj = JDict fields /\ dict_get key fields = Some v.

(** The fields [build_vroom_request] subscripts are there: [depot] with its
    [location], the list [vehicles] with a [capacity] each, the list [jobs]
    with a [location] each.  Nothing is said about their values. *)
Definition fields_present (payload : json) : Prop :=
  exists fields depot location vehicles jobs,
    payload = JDict fields
    /\ dict_get "depot" fields = Some (JDict depot)
    /\ dict_get "location" depot = Some location
    /\ dict_get "vehicles" fields = Some (JList vehicles)
    /\ Forall (has_field "capacity") vehicles
    /\ dict_get "jobs" fields = Some (JList jobs)
    /\ Forall (has_field "location") jobs.

(** [obj[key]] when [obj] is a dictionary with that key. *)
Definition field (key : string) (obj : json) : option json :=
  match obj with
  | JDict fields => dict_get key fields
  | _ => None
  end.

(** The list under [key], which a loop over [obj.get(key, [])] visits. *)
Definition items_at (key : string) (obj : json) : list json :=
  match field key obj with
  | Some (JList items) => items
  | _ => []
  end.

(** [internal in ids] is false. *)
Definition not_in_map (ids : gmap Z string) (internal : json) : Prop :=
  map_find internal ids = Ok None.

(** The entry names under [key] one of the indices 1 to [n]. *)
Definition refers (key : string) (n : nat) (entry : json) : Prop :=
  exists i : Z, field key entry = Some (JInt i) /\ (1 ≤ i ≤ Z.of_nat n)%Z.

(** The key is missing, or holds a list of items that satisfy [P]. *)
Definition list_or_missing (key : string) (obj : json) (P : json -> Prop)
  : Prop :=
  field key obj = None
  \/ exists items, field key obj = Some (JList items) /\ Forall P items.

(** A step is an object, with a job index among 1 to [m] or with none (the
    start and the end of a route). *)
Definition step_refers (m : nat) (step : json) : Prop :=
  (exists fields, step = JDict fields)
  /\ (field "job" step = None \/ refers "job" m step).

(** A solution over [n] vehicles and [m] jobs that names only indices the
    solver was given. *)
Definition references_assigned (n m : nat) (solution : json) : Prop :=
  (exists fields, solution = JDict fields)
  /\ list_or_missing "routes" solution
       (fun route => refers "vehicle" n route
                     /\ list_or_missing "steps" route (step_refers m))
  /\ list_or_missing "unassigned" solution (refers "id" m).

(** A value a dictionary can be asked for: anything but a list or an
    object. *)
Definition hashable (v : json) : Prop :=
  exists k, int_key v = Ok k.

(** An object whose index under [key] ([None] when missing) is hashable,
    be it in the identity map or not. *)
Definition indexed (key : string) (entry : json) : Prop :=
  exists fields, entry = JDict fields /\ hashable (get_or_none key fields).

(** A solution made of such objects: routes by [vehicle], steps by [job],
    unassigned entries by [id]. *)
Definition reconcilable (solution : json) : Prop :=
  (exists fields, solution = JDict fields)
  /\ list_or_missing "routes" solution
       (fun route => indexed "vehicle" route
                     /\ list_or_missing "steps" route (indexed "job"))
  /\ list_or_missing "unassigned" solution (indexed "id").

Section Identity.
Variable py_repr : json -> string.

(** The external id of the entity [fields] at index [idx]: its [id] as a
    string, or the positional default. *)
Definition external_id (prefix : string) (idx : Z)
  (fields : list (string * json)) : string :=
  py_str py_repr (default (JStr (prefix +:+ pretty idx)) (dict_get "id" fields)).

(** [ids] sends every position of [entities], counted from 1, to the
    external id of the entity there. *)
Definition identity_map (prefix : string) (entities : list json)
  (ids : gmap Z string) : Prop :=
  forall i : Z, (1 ≤ i ≤ Z.of_nat (length entities))%Z ->
    exists fields,
      entities !! Z.to_nat (i - 1) = Some (JDict fields)
      /\ ids !! i = Some (external_id prefix i fields).

End Identity.

(** The message of the [service] check for the job at [idx]. *)
Definition service_message (idx : Z) : string :=
  ("`jobs[" +:+ pretty idx +:+ "]")
  +:+ ".service` must be a non-negative integer in seconds.".

(** The request reaches the solver: the length header is a decimal number,
    the body decodes to [payload], and the validator has no message. *)
Definition accepted (req : request) (payload : json) : Prop :=
  isdigit (content_length req) = true
  /\ py_int (content_length req) = Ok ()
  /\ decoded_body req = Ok payload
  /\ validate_payload payload = [].

(** The exception classes [handle_health] catches around the probe. *)
Definition caught_by_health (c : exn_class) : Prop :=
  c = HTTPError \/ c = URLError \/ c = TimeoutError \/ c = JSONDecodeError.

(** The probe ends in a way the handler has a branch for: one of the
    exceptions it catches, a status other than 200, or a 200 whose body is
    a JSON object. *)
Definition probe_handled (probe : probe_outcome) : Prop :=
  match probe with
  | ProbeRaised e => caught_by_health (class e)
  | ProbeAnswered status payload =>
      status ≠ 200%Z
      \/ match payload with
         | Ok v => exists fields, v = JDict fields
         | Raise e => caught_by_health (class e)
         end
  end.

(** The probe succeeds: HTTP 200 and the code ["Ok"]. *)
Definition probe_succeeds (probe : probe_outcome) : bool :=
  match probe with
  | ProbeAnswered status (Ok payload) =>
      match field "code" payload with
      | Some (JStr code) => bool_decide (status = 200%Z /\ code = "Ok")
      | _ => false
      end
  | _ => false
  end.

(** The detail the design document describes: the code the routing engine
    reports (["unknown"] without one), the HTTP status when it is not 200,
    or the text of the error. *)
Definition reported_detail (probe : probe_outcome) : json :=
  match probe with
  | ProbeRaised e => JStr (message e)
  | ProbeAnswered status payload =>
      if decide (status = 200%Z) then
        match payload with
        | Ok v => default (JStr "unknown") (field "code" v)
        | Raise e => JStr (message e)
        end
      else JStr ("HTTP " +:+ pretty status)
  end.

(** ** The request schema *)

(** A coordinate: a pair of components within the ranges. *)
Definition coordinate (v : json) : Prop :=
  exists lon lat, v = JList [lon; lat]
                  /\ component_within (-180) 180 lon
                  /\ component_within (-90) 90 lat.

(** A time window: a pair of integers (or booleans) in order. *)
Definition time_window (v : json) : Prop :=
  exists lo hi a b, v = JList [lo; hi]
                    /\ as_int lo = Some a /\ as_int hi = Some b /\ (a ≤ b)%Z.

(** An integer (or boolean) above [bound]. *)
Definition int_above (bound : Z) (v : json) : Prop :=
  exists z, as_int v = Some z /\ (bound < z)%Z.

(** The value under [key], when there is one, satisfies [P]. *)
Definition optional (key : string) (fields : list (string * json))
  (P : json -> Prop) : Prop :=
  forall v, dict_get key fields = Some v -> P v.

Definition valid_vehicle (vehicle : json) : Prop :=
  exists fields capacity,
    vehicle = JDict fields
    /\ dict_get "capacity" fields = Some capacity /\ int_above 0 capacity
    /\ optional "start" fields coordinate
    /\ optional "end" fields coordinate
    /\ optional "time_window" fields time_window.

Definition valid_job (job : json) : Prop :=
  exists fields location,
    job = JDict fields
    /\ dict_get "location" fields = Some location /\ coordinate location
    /\ optional "demand" fields (int_above 0)
    /\ optional "service" fields (fun v => v = JNull \/ int_above (-1) v)
    /\ optional "time_windows" fields
         (fun v => exists entries,
                     v = JList entries /\ entries ≠ []
                     /\ Forall time_window entries).

(** The requests the validator has no message for. *)
Definition valid_request (payload : json) : Prop :=
  exists fields depot location vehicles jobs,
    payload = JDict fields
    /\ dict_get "depot" fields = Some (JDict depot)
    /\ dict_get "location" depot = Some location /\ coordinate location
    /\ dict_get "vehicles" fields = Some (JList vehicles)
    /\ vehicles ≠ [] /\ Forall valid_vehicle vehicles
    /\ dict_get "jobs" fields = Some (JList jobs)
    /\ jobs ≠ [] /\ Forall valid_job jobs.

(** ** The solver records *)

(** [Some v] unless [v] is [None]: what an [if v is not None] lets pass. *)
Definition unless_null (v : option json) : option json :=
  match v with
  | Some JNull => None
  | other => other
  end.

(** The solver record of the vehicle [fields] at index [idx]. *)
Definition vehicle_record (depot_location : json) (idx : Z)
  (fields : list (string * json)) (record : json) : Prop :=
  field "id" record = Some (JInt idx)
  /\ field "capacity" record
     = (fun c => JList [c]) <$> dict_get "capacity" fields
  /\ field "start" record
     = Some (default depot_location (dict_get "start" fields))
  /\ field "end" record
     = Some (default depot_location (dict_get "end" fields))
  /\ field "time_window" record = unless_null (dict_get "time_window" fields).

(** The solver record of the job [fields] at index [idx]. *)
Definition job_record (idx : Z) (fields : list (string * json))
  (record : json) : Prop :=
  field "id" record = Some (JInt idx)
  /\ field "location" record = dict_get "location" fields
  /\ field "service" record
     = Some (default (JInt 300) (dict_get "service" fields))
  /\ field "delivery" record
     = Some (JList [default (JInt 1) (dict_get "demand" fields)])
  /\ field "time_windows" record
     = unless_null (dict_get "time_windows" fields).

(** ** Failures and paths *)

(** The exceptions of the reconciler: not iterable, unhashable, no [get]. *)
Definition reconciler_error (e : exn) : Prop :=
  class e = TypeError \/ class e = AttributeError.

(** The suffix [do_GET] puts back after the path: the parameters after a
    semicolon and the query after a question mark, each when not empty. *)
Definition url_suffix (parsed : parsed_url) : string :=
  (if decide (url_params parsed = EmptyString) then EmptyString
   else ";" +:+ url_params parsed)
  +:+ (if decide (url_query parsed = EmptyString) then EmptyString
       else "?" +:+ url_query parsed).

(** ** Sample requests and solver outputs *)

(** The interpreter's [repr] for the samples: none of them has a float, a
    list or a dictionary for an [id], so it is never asked. *)
Definition no_repr : json -> string := fun _ => EmptyString.

(** The request of the design document's end-to-end example. *)
Definition example_payload : json :=
  JDict [("depot", JDict [("location", JList [JFloat (FNum 7); JFloat (FNum 43)])]);
         ("vehicles", JList [JDict [("capacity", JInt 10)]]);
         ("jobs", JList [JDict [("location",
                                 JList [JFloat (FNum (71 # 10));
                                        JFloat (FNum (431 # 10))])]])].

(** The example request of the design document, as the handler reads it. *)
Definition example_request : request := Request "95" (Ok example_payload).

(** The solver response of the design document's end-to-end example. *)
Definition example_solution : json :=
  JDict [("routes",
          JList [JDict [("vehicle", JInt 1);
                        ("steps",
                         JList [JDict [("type", JStr "start")];
                                JDict [("type", JStr "job"); ("job", JInt 1)];
                                JDict [("type", JStr "end")]])]]);
         ("unassigned", JList [])].

(** A request with a boolean wherever the validator asks for an integer or
    a number. *)
Definition boolean_payload : json :=
  JDict [("depot", JDict [("location", JList [JBool true; JBool true])]);
         ("vehicles",
          JList [JDict [("capacity", JBool true);
                        ("start", JList [JBool true; JBool false]);
                        ("end", JList [JBool false; JBool true]);
                        ("time_window", JList [JBool false; JBool true])]]);
         ("jobs",
          JList [JDict [("location", JList [JBool false; JBool true]);
                        ("demand", JBool true);
                        ("service", JBool true);
                        ("time_windows",
                         JList [JList [JBool true; JBool true]])]])].

(** A solver output that names vehicle 9 and jobs 5 and 4, unknown to the
    maps of one vehicle and one job. *)
Definition stray_solution : json :=
  JDict [("routes",
          JList [JDict [("vehicle", JInt 9); ("cost", JInt 12);
                        ("steps", JList [JDict [("job", JInt 5)]])]]);
         ("unassigned", JList [JDict [("id", JInt 4)]])].

(** What [json.loads] does with an empty text. *)
Definition no_json : result json := raise JSONDecodeError "Expecting value".

(** The line feed that ends a line of the solver's error stream. *)
Definition newline : string := String "010"%char EmptyString.

(** The double quote of a JSON text. *)
Definition quote : string := String "034"%char EmptyString.

(** The text [s] between double quotes. *)
Definition quoted (s : string) : string := quote +:+ s +:+ quote.

(** A solver output with one route and one stop:
    [{"routes":[{"vehicle":1,"steps":[{"job":1}]}],"unassigned":[]}]. *)
Definition one_stop_stdout : string :=
  "{" +:+ quoted "routes" +:+ ":[{" +:+ quoted "vehicle" +:+ ":1,"
  +:+ quoted "steps" +:+ ":[{" +:+ quoted "job" +:+ ":1}]}],"
  +:+ quoted "unassigned" +:+ ":[]}".

(** What [json.loads] makes of that output. *)
Definition one_stop_solution : json :=
  JDict [("routes",
          JList [JDict [("vehicle", JInt 1);
                        ("steps", JList [JDict [("job", JInt 1)]])]]);
         ("unassigned", JList [])].

(** * Properties *)

(** ** The error monad and the dictionaries *)

Lemma bind_Ok {A B : Type} (m : result A) (k : A -> result B) (b : B) :
  m ≫= k = Ok b -> exists a, m = Ok a /\ k a = Ok b.
Proof. destruct m as [a|e]; simpl; [eauto | discriminate]. Qed.

Lemma bind_Ok_l {A B : Type} (a : A) (k : A -> result B) : Ok a ≫= k = k a.
Proof. reflexivity. Qed.

Ltac inv_bind H :=
  let a := fresh "a" in
  let Ha := fresh "Ha" in
  apply bind_Ok in H; destruct H as (a & Ha & H).

Lemma dict_get_set_eq key value fields :
  dict_get key (dict_set key value fields) = Some value.
Proof.
  induction fields as [|[k v] rest IH]; simpl.
  - by rewrite decide_True.
  - destruct (decide (k = key)) as [->|Hne]; simpl.
    + by rewrite decide_True.
    + by rewrite decide_False.
Qed.

Lemma dict_get_set_ne key key' value fields :
  key ≠ key' ->
  dict_get key' (dict_set key value fields) = dict_get key' fields.
Proof.
  intros Hne. induction fields as [|[k v] rest IH]; simpl.
  - by rewrite decide_False.
  - destruct (decide (k = key)) as [->|Hk]; simpl.
    + by rewrite !decide_False.
    + by rewrite IH.
Qed.

(** ** Coordinates *)

Lemma component_within_spec lo hi v :
  component_within lo hi v <->
  exists x, as_number v = Some x
            /\ int_le_number lo x = true /\ number_le_int x hi = true.
Proof.
  split.
  - intros [z Hz|q H1 H2|b Hb]; eexists; (split; [reflexivity|]); simpl;
      rewrite ?bool_decide_eq_true, ?Qle_bool_iff; auto with lia.
  - intros (x & Hx & H1 & H2).
    destruct v as [|b|z|[q| | |]|s|l|d]; simpl in Hx; try discriminate;
      injection Hx as <-; simpl in H1, H2; try discriminate.
    + constructor. apply bool_decide_eq_true in H1, H2. lia.
    + constructor. apply bool_decide_eq_true in H1, H2. lia.
    + constructor; by apply Qle_bool_iff.
Qed.

(** C5, counterexample: the pair [[true, false]] holds no number and is
    accepted as a coordinate. *)
Lemma is_coord_accepts_booleans :
  is_coord (JList [JBool true; JBool false]) = true
  /\ ~ json_number (JBool true) /\ ~ json_number (JBool false).
Proof. split; [reflexivity | split; intros []]. Qed.

(** C5, as amended: [is_coord] accepts a value exactly when it is a list of
    two items [[lon, lat]], each an integer, a finite float or a boolean
    (true counted as 1, false as 0), with [lon] in [-180, 180] and [lat] in
    [-90, 90]; (180, 90) and (-180, -90) are accepted and (180.0001, 0) is
    rejected. *)
Theorem is_coord_accepts_exactly :
  (forall value,
     is_coord value = true <->
     exists lon lat, value = JList [lon; lat]
                     /\ component_within (-180) 180 lon
                     /\ component_within (-90) 90 lat)
  /\ is_coord (JList [JInt 180; JInt 90]) = true
  /\ is_coord (JList [JInt (-180); JInt (-90)]) = true
  /\ is_coord (JList [JFloat (FNum (1800001 # 10000)); JInt 0]) = false.
Proof.
  split; [|by repeat split].
  intros value. split.
  - unfold is_coord.
    destruct value as [| | | | |[|lon [|lat [|? ?]]]|]; try discriminate.
    intros H. exists lon, lat. split; [done|].
    destruct (as_number lon) as [x|] eqn:Hx; [|discriminate].
    destruct (as_number lat) as [y|] eqn:Hy; [|discriminate].
    repeat (apply andb_true_iff in H; destruct H as [H ?]).
    split; apply component_within_spec; eauto.
  - intros (lon & lat & -> & Hlon & Hlat).
    apply component_within_spec in Hlat as (y & Hy & H3 & H4).
    apply component_within_spec in Hlon as (x & Hx & H1 & H2).
    unfold is_coord. by rewrite Hx, Hy, H1, H2, H3, H4.
Qed.

(** ** The validator *)

Lemma append_if_nil cond msg : append_if cond msg = [] -> cond = false.
Proof. by destruct cond. Qed.

Lemma get_or_none_some key fields v :
  get_or_none key fields = v -> v ≠ JNull -> dict_get key fields = Some v.
Proof.
  unfold get_or_none. destruct (dict_get key fields); simpl; congruence.
Qed.

Lemma flat_map_enumerate_nil {A B : Type} (f : Z -> A -> list B) start items :
  flat_map (fun ix => f (fst ix) (snd ix)) (enumerate start items) = [] ->
  Forall (fun x => exists idx, f idx x = []) items.
Proof.
  revert start. induction items as [|x rest IH]; intros start; simpl.
  - constructor.
  - intros [H1 H2]%app_eq_nil. constructor; eauto.
Qed.

Lemma is_coord_get_or_none key fields :
  is_coord (get_or_none key fields) = true ->
  exists v, dict_get key fields = Some v /\ is_coord v = true.
Proof.
  unfold get_or_none. destruct (dict_get key fields); simpl; [eauto|done].
Qed.

Lemma validate_vehicle_nil idx vehicle :
  validate_vehicle idx vehicle = [] -> has_field "capacity" vehicle.
Proof.
  destruct vehicle; try discriminate. unfold validate_vehicle.
  intros [H _]%app_eq_nil. apply append_if_nil, negb_false_iff in H.
  unfold is_positive_int, get_or_none in H.
  destruct (dict_get "capacity" fields) as [v|] eqn:Hv; [|discriminate].
  by exists fields, v.
Qed.

Lemma validate_job_nil idx job :
  validate_job idx job = [] -> has_field "location" job.
Proof.
  destruct job; try discriminate. unfold validate_job.
  intros [H _]%app_eq_nil. apply append_if_nil, negb_false_iff in H.
  apply is_coord_get_or_none in H as (v & Hv & _). by exists fields, v.
Qed.

Lemma validate_payload_nil payload :
  validate_payload payload = [] -> fields_present payload.
Proof.
  destruct payload; try discriminate. unfold validate_payload.
  intros [Hdepot [Hvehicles Hjobs]%app_eq_nil]%app_eq_nil.
  destruct (get_or_none "depot" fields) as [| | | | | |depot] eqn:Hd;
    try discriminate.
  apply get_or_none_some in Hd; [|done].
  apply append_if_nil, negb_false_iff, is_coord_get_or_none in Hdepot
    as (location & Hlocation & _).
  destruct (get_or_none "vehicles" fields) as [| | | | |[|v vehicles]|] eqn:Hv;
    try discriminate.
  apply get_or_none_some in Hv; [|done].
  destruct (get_or_none "jobs" fields) as [| | | | |[|j jobs]|] eqn:Hj;
    try discriminate.
  apply get_or_none_some in Hj; [|done].
  exists fields, depot, location, (v :: vehicles), (j :: jobs).
  repeat split; try done.
  - apply flat_map_enumerate_nil in Hvehicles.
    eapply Forall_impl; [exact Hvehicles|].
    intros x [idx Hx]. by eapply validate_vehicle_nil.
  - apply flat_map_enumerate_nil in Hjobs.
    eapply Forall_impl; [exact Hjobs|].
    intros x [idx Hx]. by eapply validate_job_nil.
Qed.

(** ** The translator *)

Section TranslatorFacts.
Variable py_repr : json -> string.

Lemma translate_vehicle_Ok depot_location vroom_vehicles vehicle_map idx fields c :
  dict_get "capacity" fields = Some c ->
  exists entry,
    translate_vehicle py_repr depot_location (vroom_vehicles, vehicle_map)
      (idx, JDict fields)
    = Ok (vroom_vehicles ++ [entry],
          <[idx := external_id py_repr "vehicle-" idx fields]> vehicle_map).
Proof.
  intros Hc. unfold translate_vehicle, external_id. simpl. rewrite Hc. simpl.
  destruct (default JNull (dict_get "time_window" fields)); eauto.
Qed.

Lemma translate_job_Ok vroom_jobs job_map idx fields location :
  dict_get "location" fields = Some location ->
  exists entry,
    translate_job py_repr (vroom_jobs, job_map) (idx, JDict fields)
    = Ok (vroom_jobs ++ [JDict entry],
          <[idx := external_id py_repr "job-" idx fields]> job_map)
    /\ dict_get "service" entry
       = Some (default (JInt 300) (dict_get "service" fields)).
Proof.
  intros Hl. unfold translate_job, external_id. simpl. rewrite Hl. simpl.
  destruct (default JNull (dict_get "time_windows" fields));
    eexists; (split; [reflexivity|]); try reflexivity;
    by rewrite dict_get_set_ne.
Qed.

(** A loop that files one external id per entity, in input order, builds
    the identity map of the positions. *)
Lemma foldM_identity_map
    (body : list json * gmap Z string -> Z * json
            -> result (list json * gmap Z string))
    (prefix key : string) :
  (forall acc m idx fields v,
     dict_get key fields = Some v ->
     exists entry,
       body (acc, m) (idx, JDict fields)
       = Ok (acc ++ [entry], <[idx := external_id py_repr prefix idx fields]> m)) ->
  forall items, Forall (has_field key) items ->
  forall start acc m,
    exists acc' m',
      foldM body (acc, m) (enumerate start items) = Ok (acc', m')
      /\ (forall (i : nat) fields,
            items !! i = Some (JDict fields) ->
            m' !! (start + Z.of_nat i)%Z
            = Some (external_id py_repr prefix (start + Z.of_nat i) fields))
      /\ (forall z, (z < start)%Z -> m' !! z = m !! z).
Proof.
  intros Hbody items Hitems.
  induction Hitems as [|x rest (fields & v & -> & Hv) _ IH];
    intros start acc m; simpl.
  - exists acc, m. split; [done|]. split; [|done].
    intros i fields Hi. by rewrite lookup_nil in Hi.
  - destruct (Hbody acc m start fields v Hv) as [entry ->]. simpl.
    destruct (IH (start + 1)%Z (acc ++ [entry])
                (<[start := external_id py_repr prefix start fields]> m))
      as (acc' & m' & -> & Hin & Hout).
    exists acc', m'. split; [done|]. split.
    + intros [|i] fields' Hi; simpl in Hi.
      * injection Hi as <-. rewrite Z.add_0_r, Hout by lia.
        by rewrite lookup_insert_eq.
      * replace (start + Z.of_nat (S i))%Z with (start + 1 + Z.of_nat i)%Z
          by lia.
        by apply Hin.
    + intros z Hz. rewrite Hout by lia. by rewrite lookup_insert_ne by lia.
Qed.

(** With the fields present the translation returns, and the two maps send
    each 1-based position to the external id of the entity there. *)
Lemma build_vroom_request_maps fields depot location vehicles jobs :
  dict_get "depot" fields = Some (JDict depot) ->
  dict_get "location" depot = Some location ->
  dict_get "vehicles" fields = Some (JList vehicles) ->
  Forall (has_field "capacity") vehicles ->
  dict_get "jobs" fields = Some (JList jobs) ->
  Forall (has_field "location") jobs ->
  exists vroom_request vehicle_map job_map,
    build_vroom_request py_repr (JDict fields)
    = Ok (vroom_request, vehicle_map, job_map)
    /\ (forall (i : nat) vehicle,
          vehicles !! i = Some (JDict vehicle) ->
          vehicle_map !! (1 + Z.of_nat i)%Z
          = Some (external_id py_repr "vehicle-" (1 + Z.of_nat i) vehicle))
    /\ (forall (i : nat) job,
          jobs !! i = Some (JDict job) ->
          job_map !! (1 + Z.of_nat i)%Z
          = Some (external_id py_repr "job-" (1 + Z.of_nat i) job)).
Proof.
  intros Hd Hl Hv Hvs Hj Hjs. unfold build_vroom_request. simpl.
  rewrite Hd. simpl. rewrite Hl. simpl. rewrite Hv. simpl.
  destruct (foldM_identity_map (translate_vehicle py_repr location)
              "vehicle-" "capacity"
              (fun acc m idx f v => translate_vehicle_Ok location acc m idx f v)
              vehicles Hvs 1%Z [] ∅)
    as (vs & vm & -> & Hvm & _).
  simpl. rewrite Hj. simpl.
  destruct (foldM_identity_map (translate_job py_repr) "job-" "location"
              (fun acc m idx f v H =>
                 let '(ex_intro _ entry (conj E _)) :=
                   translate_job_Ok acc m idx f v H in
                 ex_intro _ (JDict entry) E)
              jobs Hjs 1%Z [] ∅)
    as (js & jm & -> & Hjm & _).
  simpl. eauto 10.
Qed.

End TranslatorFacts.

Lemma build_vroom_request_present (py_repr : json -> string) (payload : json) :
  fields_present payload ->
  exists vroom_request vehicle_map job_map,
    build_vroom_request py_repr payload
    = Ok (vroom_request, vehicle_map, job_map).
Proof.
  intros (fields & depot & location & vehicles & jobs
          & -> & Hd & Hl & Hv & Hvs & Hj & Hjs).
  destruct (build_vroom_request_maps py_repr fields depot location
              vehicles jobs Hd Hl Hv Hvs Hj Hjs)
    as (req & vm & jm & E & _).
  eauto.
Qed.

(** C3: on a payload the validator accepts, every field the translation
    subscripts is present and [build_vroom_request] returns; it returns on
    the presence of those fields alone, whatever their values, so it
    checks no range again. *)
Theorem build_vroom_request_total (py_repr : json -> string) (payload : json) :
  (validate_payload payload = [] -> fields_present payload)
  /\ (fields_present payload ->
      exists vroom_request vehicle_map job_map,
        build_vroom_request py_repr payload
        = Ok (vroom_request, vehicle_map, job_map))
  /\ (validate_payload payload = [] ->
      exists vroom_request vehicle_map job_map,
        build_vroom_request py_repr payload
        = Ok (vroom_request, vehicle_map, job_map)).
Proof.
  split; [apply validate_payload_nil|].
  split; [apply build_vroom_request_present|].
  intros H. by apply build_vroom_request_present, validate_payload_nil.
Qed.

Lemma build_vroom_request_total_witness :
  validate_payload example_payload = []
  /\ exists vroom_request vehicle_map job_map,
       build_vroom_request no_repr example_payload
       = Ok (vroom_request, vehicle_map, job_map).
Proof.
  split; [reflexivity|].
  apply (build_vroom_request_total no_repr example_payload).
  reflexivity.
Defined.

(** A payload the validator rejects for its ranges (a longitude of 500, a
    capacity of -3) and the translation takes as it is. *)
Example build_vroom_request_out_of_range :
  let payload :=
    JDict [("depot", JDict [("location", JList [JInt 500; JInt 0])]);
           ("vehicles", JList [JDict [("capacity", JInt (-3))]]);
           ("jobs", JList [JDict [("location", JNull)]])] in
  validate_payload payload
  = ["`depot.location` must be [lon, lat].";
     "`vehicles[1].capacity` must be a positive integer.";
     "`jobs[1].location` must be [lon, lat]."]
  /\ exists vehicle_map job_map,
       build_vroom_request no_repr payload
       = Ok (JDict [("vehicles",
                     JList [JDict [("id", JInt 1);
                                   ("capacity", JList [JInt (-3)]);
                                   ("start", JList [JInt 500; JInt 0]);
                                   ("end", JList [JInt 500; JInt 0])]]);
                    ("jobs",
                     JList [JDict [("id", JInt 1); ("location", JNull);
                                   ("service", JInt 300);
                                   ("delivery", JList [JInt 1])]])],
             vehicle_map, job_map).
Proof. split; [reflexivity|]. by do 2 eexists. Qed.

(** ** Booleans and null *)

(** C9: a boolean passes wherever the validator asks for an integer or a
    number, [true] counting as 1: [{"capacity": true}] is a valid vehicle,
    [true] is a valid demand, service duration, time-window bound and
    coordinate component, and the payload made of booleans in all these
    places yields no message. *)
Theorem booleans_pass_validation :
  as_int (JBool true) = Some 1%Z
  /\ (forall idx, validate_vehicle idx (JDict [("capacity", JBool true)]) = [])
  /\ is_positive_int (JBool true) = true
  /\ service_ok (JBool true) = true
  /\ is_time_window (JList [JBool false; JBool true]) = true
  /\ is_coord (JList [JBool true; JBool true]) = true
  /\ validate_payload boolean_payload = [].
Proof. repeat split. Qed.

Lemma string_app_inv_head (p a b : string) : p +:+ a = p +:+ b -> a = b.
Proof.
  induction p as [|c p IH]; simpl; [done|]. intros H. inversion H. auto.
Qed.

Lemma elem_of_append_if (msg msg' : string) cond :
  msg ∈ append_if cond msg' -> msg = msg'.
Proof.
  destruct cond; simpl; intros H.
  - by apply list_elem_of_singleton in H.
  - by apply elem_of_nil in H.
Qed.

(** C10: a job whose [service] is there and null raises no [service]
    message in the validator, and its solver record carries a null service
    duration; the default 300 is emitted only when the key is missing. *)
Theorem null_service_is_passed_on (py_repr : json -> string) (idx : Z)
    (fields : list (string * json)) (location : json)
    (vroom_jobs : list json) (job_map : gmap Z string) :
  dict_get "location" fields = Some location ->
  (dict_get "service" fields = Some JNull ->
   (service_message idx ∉ validate_job idx (JDict fields))
   /\ exists entry job_map',
        translate_job py_repr (vroom_jobs, job_map) (idx, JDict fields)
        = Ok (vroom_jobs ++ [JDict entry], job_map')
        /\ dict_get "service" entry = Some JNull)
  /\ (dict_get "service" fields = None ->
      exists entry job_map',
        translate_job py_repr (vroom_jobs, job_map) (idx, JDict fields)
        = Ok (vroom_jobs ++ [JDict entry], job_map')
        /\ dict_get "service" entry = Some (JInt 300)).
Proof.
  intros Hl.
  destruct (translate_job_Ok py_repr vroom_jobs job_map idx fields location Hl)
    as (entry & Hjob & Hservice).
  split; intros Hs; rewrite Hs in Hservice; [split|]; eauto.
  unfold validate_job, service_message, get_or_none. rewrite Hs. simpl.
  unfold dict_has, time_windows_errors.
  rewrite !elem_of_app.
  intros [H|[H|H]].
  - by apply elem_of_append_if, string_app_inv_head in H.
  - by apply elem_of_append_if, string_app_inv_head in H.
  - case_bool_decide; [|by apply elem_of_nil in H].
    destruct (default JNull (dict_get "time_windows" fields))
      as [| | | | |[|tw tws]|];
      first [ by apply elem_of_append_if, string_app_inv_head in H
            | by apply list_elem_of_singleton, string_app_inv_head in H ].
Qed.

Lemma null_service_is_passed_on_witness :
  let fields := [("location", JList [JInt 7; JInt 43]); ("service", JNull)] in
  ((service_message 1 ∉ validate_job 1 (JDict fields))
   /\ exists entry job_map',
        translate_job no_repr ([], ∅) (1%Z, JDict fields)
        = Ok ([] ++ [JDict entry], job_map')
        /\ dict_get "service" entry = Some JNull).
Proof.
  intros fields.
  apply (null_service_is_passed_on no_repr 1 fields
           (JList [JInt 7; JInt 43]) [] ∅); reflexivity.
Defined.

(** The whole path on one request: the job with a null [service] is valid
    and its solver record says [("service", JNull)]. *)
Example null_service_end_to_end :
  let payload :=
    JDict [("depot", JDict [("location", JList [JInt 7; JInt 43])]);
           ("vehicles", JList [JDict [("capacity", JInt 10)]]);
           ("jobs", JList [JDict [("location", JList [JInt 7; JInt 43]);
                                  ("service", JNull)]])] in
  validate_payload payload = []
  /\ exists vehicles vehicle_map job_map,
       build_vroom_request no_repr payload
       = Ok (JDict [("vehicles", vehicles);
                    ("jobs",
                     JList [JDict [("id", JInt 1);
                                   ("location", JList [JInt 7; JInt 43]);
                                   ("service", JNull);
                                   ("delivery", JList [JInt 1])]])],
             vehicle_map, job_map).
Proof. split; [reflexivity|]. by do 3 eexists. Qed.

(** ** The reconciler *)

Lemma mapM_Forall2 {A B : Type} (f : A -> result B) items items' :
  mapM f items = Ok items' <-> Forall2 (fun x y => f x = Ok y) items items'.
Proof.
  revert items'. induction items as [|x rest IH]; intros items'; simpl.
  - split; [intros [= <-]; constructor | by intros ->%Forall2_nil_inv_l].
  - split.
    + intros H. inv_bind H. inv_bind H. injection H as <-.
      constructor; [done|]. by apply IH.
    + intros (y & ys & Hy & Hys & ->)%Forall2_cons_inv_l.
      rewrite Hy. simpl. apply IH in Hys. by rewrite Hys.
Qed.

Lemma mapM_total {A B : Type} (f : A -> result B) items :
  Forall (fun x => exists y, f x = Ok y) items ->
  exists items', mapM f items = Ok items'.
Proof.
  induction 1 as [|x rest [y Hy] _ [ys Hys]]; simpl; [eauto|].
  rewrite Hy. simpl. rewrite Hys. simpl. eauto.
Qed.

Lemma items_at_set key items fields :
  items_at key (JDict (dict_set key (JList items) fields)) = items.
Proof. unfold items_at, field. by rewrite dict_get_set_eq. Qed.

Lemma items_at_field key obj obj' :
  field key obj' = field key obj -> items_at key obj' = items_at key obj.
Proof. unfold items_at. by intros ->. Qed.

(** The loop over [obj.get(key, [])] replaces each item of the list by what
    [body] makes of it and touches no other field. *)
Lemma for_each_in_Ok key body obj obj' :
  for_each_in key body obj = Ok obj' ->
  Forall2 (fun x y => body x = Ok y) (items_at key obj) (items_at key obj')
  /\ (forall k, k ≠ key -> field k obj' = field k obj)
  /\ (exists fields, obj = JDict fields) /\ (exists fields', obj' = JDict fields').
Proof.
  destruct obj as [| | | | | |fields]; try discriminate. simpl.
  destruct (dict_get key fields) as [[| | | | |items|]|] eqn:Hkey; simpl;
    try discriminate.
  - intros H. inv_bind H. injection H as <-.
    unfold items_at. simpl. rewrite Hkey. eauto 10 using Forall2_nil.
  - intros H. inv_bind H. injection H as <-. rewrite items_at_set.
    unfold items_at at 1. simpl. rewrite Hkey.
    split; [by apply mapM_Forall2|].
    split; [|eauto]. intros k Hk. simpl. by rewrite dict_get_set_ne.
  - intros H. inv_bind H. injection H as <-.
    unfold items_at. simpl. rewrite Hkey. eauto 10 using Forall2_nil.
  - intros [= <-]. unfold items_at. simpl. rewrite Hkey.
    eauto 10 using Forall2_nil.
Qed.

Lemma for_each_in_total key body obj :
  (exists fields, obj = JDict fields) ->
  (field key obj = None
   \/ exists items, field key obj = Some (JList items)
                    /\ Forall (fun x => exists y, body x = Ok y) items) ->
  exists obj', for_each_in key body obj = Ok obj'.
Proof.
  intros [fields ->]. simpl. intros [->|(items & -> & Hitems)]; [eauto|].
  destruct (mapM_total body items Hitems) as [items' ->]. simpl. eauto.
Qed.

(** One annotation step, in its two cases. *)
Lemma annotate_found key tag ids fields i external :
  int_key (get_or_none key fields) = Ok (Some i) ->
  ids !! i = Some external ->
  annotate key tag ids (JDict fields)
  = Ok (JDict (dict_set tag (JStr external) fields)).
Proof.
  intros Hi Hext. unfold annotate, map_find, get_or_none in *. simpl.
  rewrite Hi. simpl. by rewrite Hext.
Qed.

Lemma annotate_absent key tag ids fields :
  not_in_map ids (get_or_none key fields) ->
  annotate key tag ids (JDict fields) = Ok (JDict fields).
Proof.
  unfold not_in_map, annotate, get_or_none. simpl. by intros ->.
Qed.

Lemma annotate_Ok key tag ids entry entry' :
  annotate key tag ids entry = Ok entry' ->
  (exists fields, entry = JDict fields)
  /\ forall k, k ≠ tag -> field k entry' = field k entry.
Proof.
  intros H. unfold annotate in H. inv_bind H. inv_bind H.
  destruct entry as [| | | | | |fields]; try discriminate.
  split; [eauto|]. intros k Hk.
  destruct a0; injection H as <-; [|done].
  simpl. by rewrite dict_get_set_ne.
Qed.

Lemma annotate_route_Ok vehicle_map job_map route route' :
  annotate_route vehicle_map job_map route = Ok route' ->
  exists route1,
    annotate "vehicle" "vehicle_external_id" vehicle_map route = Ok route1
    /\ Forall2 (fun s s' => annotate "job" "job_external_id" job_map s = Ok s')
         (items_at "steps" route) (items_at "steps" route')
    /\ (forall k, k ≠ "steps" -> field k route' = field k route1).
Proof.
  intros H. unfold annotate_route in H. inv_bind H.
  apply for_each_in_Ok in H as (Hsteps & Hframe & _).
  exists a. split; [done|]. split; [|done].
  apply annotate_Ok in Ha as [_ Ha].
  by rewrite <- (items_at_field "steps" route a) by (by apply Ha).
Qed.

Lemma add_external_ids_Ok solution vehicle_map job_map annotated :
  add_external_ids solution vehicle_map job_map = Ok annotated ->
  Forall2 (fun r r' => annotate_route vehicle_map job_map r = Ok r')
    (items_at "routes" solution) (items_at "routes" annotated)
  /\ Forall2 (fun u u' => annotate "id" "job_external_id" job_map u = Ok u')
       (items_at "unassigned" solution) (items_at "unassigned" annotated)
  /\ (forall k, k ≠ "routes" -> k ≠ "unassigned" ->
                field k annotated = field k solution).
Proof.
  intros H. unfold add_external_ids in H. inv_bind H.
  apply for_each_in_Ok in Ha as (Hroutes & Hframe1 & _).
  apply for_each_in_Ok in H as (Hunassigned & Hframe2 & _).
  split; [|split].
  - by rewrite (items_at_field "routes" a annotated) by (by apply Hframe2).
  - by rewrite <- (items_at_field "unassigned" solution a)
      by (by apply Hframe1).
  - intros k H1 H2. by rewrite Hframe2, Hframe1.
Qed.

Lemma annotate_total key tag ids entry :
  indexed key entry -> exists entry', annotate key tag ids entry = Ok entry'.
Proof.
  intros (fields & -> & k & Hk). unfold annotate, map_find, get_or_none in *.
  simpl. rewrite Hk. simpl. destruct (k ≫= _); eauto.
Qed.

Lemma annotate_route_reconcilable vehicle_map job_map route :
  indexed "vehicle" route ->
  list_or_missing "steps" route (indexed "job") ->
  exists route', annotate_route vehicle_map job_map route = Ok route'.
Proof.
  intros Hvehicle Hsteps.
  destruct (annotate_total "vehicle" "vehicle_external_id" vehicle_map
              route Hvehicle) as [route1 H1].
  unfold annotate_route. rewrite H1, bind_Ok_l.
  destruct (annotate_Ok _ _ _ _ _ H1) as [[fields ->] Hframe].
  assert (exists fields1, route1 = JDict fields1) as Hdict1.
  { unfold annotate in H1. inv_bind H1. inv_bind H1.
    destruct a0; injection H1 as <-; eauto. }
  apply for_each_in_total; [done|]. rewrite Hframe by done.
  destruct Hsteps as [?|(steps & ? & Hall)]; [by left|right].
  exists steps. split; [done|].
  eapply Forall_impl; [exact Hall|]. intros step. apply annotate_total.
Qed.

Lemma add_external_ids_reconcilable solution vehicle_map job_map :
  reconcilable solution ->
  exists annotated,
    add_external_ids solution vehicle_map job_map = Ok annotated.
Proof.
  intros (Hdict & Hroutes & Hunassigned). unfold add_external_ids.
  destruct (for_each_in_total "routes"
              (annotate_route vehicle_map job_map) solution Hdict)
    as [solution' Hsolution'].
  { destruct Hroutes as [?|(routes & ? & Hall)]; [by left|right].
    exists routes. split; [done|].
    eapply Forall_impl; [exact Hall|].
    intros route [? ?]. by apply annotate_route_reconcilable. }
  rewrite Hsolution', bind_Ok_l.
  apply for_each_in_Ok in Hsolution' as (_ & Hframe & _ & Hdict').
  apply for_each_in_total; [done|]. rewrite Hframe by done.
  destruct Hunassigned as [?|(entries & ? & Hall)]; [by left|right].
  exists entries. split; [done|].
  eapply Forall_impl; [exact Hall|]. intros entry. apply annotate_total.
Qed.

(** C7: a lookup that fails does not abort the reconciliation and changes
    nothing.  Annotating an entry whose index is not in the map returns
    that entry as it is; on a solution made of objects with hashable
    indices, in the maps or not, [add_external_ids] returns; and in the
    solution it returns, a route whose vehicle index is not in the vehicle
    map keeps every field but [steps] as it was (no [vehicle_external_id]
    is added) and its steps change by their own lookups only, and a step
    whose job index, and an unassigned entry whose id, is not in the job
    map is the same entry afterwards. *)
Theorem lookups_fail_open (solution : json) (vehicle_map job_map : gmap Z string) :
  (forall key tag ids fields,
     not_in_map ids (get_or_none key fields) ->
     annotate key tag ids (JDict fields) = Ok (JDict fields))
  /\ (reconcilable solution ->
      exists annotated,
        add_external_ids solution vehicle_map job_map = Ok annotated)
  /\ forall annotated,
       add_external_ids solution vehicle_map job_map = Ok annotated ->
       (forall (k : nat) route,
          items_at "routes" solution !! k = Some route ->
          not_in_map vehicle_map (default JNull (field "vehicle" route)) ->
          exists route',
            items_at "routes" annotated !! k = Some route'
            /\ (forall key, key ≠ "steps" -> field key route' = field key route)
            /\ Forall2
                 (fun s s' => annotate "job" "job_external_id" job_map s = Ok s')
                 (items_at "steps" route) (items_at "steps" route'))
       /\ (forall (k s : nat) route step,
             items_at "routes" solution !! k = Some route ->
             items_at "steps" route !! s = Some step ->
             not_in_map job_map (default JNull (field "job" step)) ->
             exists route',
               items_at "routes" annotated !! k = Some route'
               /\ items_at "steps" route' !! s = Some step)
       /\ (forall (k : nat) entry,
             items_at "unassigned" solution !! k = Some entry ->
             not_in_map job_map (default JNull (field "id" entry)) ->
             items_at "unassigned" annotated !! k = Some entry).
Proof.
  split; [intros key tag ids fields; apply annotate_absent|].
  split; [apply add_external_ids_reconcilable|].
  intros annotated (Hroutes & Hunassigned & _)%add_external_ids_Ok.
  split; [|split].
  - intros k route Hk Habsent.
    destruct (Forall2_lookup_l _ _ _ _ _ Hroutes Hk) as (route' & Hk' & Hr).
    apply annotate_route_Ok in Hr as (route1 & H1 & Hsteps & Hframe).
    destruct (annotate_Ok _ _ _ _ _ H1) as [[fields ->] _].
    rewrite annotate_absent in H1 by done. injection H1 as <-. eauto.
  - intros k s route step Hk Hs Habsent.
    destruct (Forall2_lookup_l _ _ _ _ _ Hroutes Hk) as (route' & Hk' & Hr).
    apply annotate_route_Ok in Hr as (_ & _ & Hsteps & _).
    destruct (Forall2_lookup_l _ _ _ _ _ Hsteps Hs) as (step' & Hs' & Hstep).
    destruct (annotate_Ok _ _ _ _ _ Hstep) as [[fields ->] _].
    rewrite annotate_absent in Hstep by done. injection Hstep as <-. eauto.
  - intros k entry Hk Habsent.
    destruct (Forall2_lookup_l _ _ _ _ _ Hunassigned Hk) as (entry' & Hk' & He).
    destruct (annotate_Ok _ _ _ _ _ He) as [[fields ->] _].
    rewrite annotate_absent in He by done. by injection He as <-.
Qed.

Lemma stray_solution_reconcilable : reconcilable stray_solution.
Proof.
  assert (Hint : forall key z rest,
            indexed key (JDict ((key, JInt z) :: rest))).
  { intros key z rest. eexists. split; [reflexivity|].
    unfold get_or_none. simpl. rewrite decide_True by done. by eexists. }
  split; [by eexists|]. split.
  - right. eexists. split; [reflexivity|].
    constructor; [|constructor]. split; [apply Hint|].
    right. eexists. split; [reflexivity|].
    constructor; [apply Hint | constructor].
  - right. eexists. split; [reflexivity|].
    constructor; [apply Hint | constructor].
Qed.

Lemma lookups_fail_open_witness :
  (exists annotated,
     add_external_ids stray_solution {[1%Z := "van"]} {[1%Z := "parcel"]}
     = Ok annotated)
  /\ add_external_ids stray_solution {[1%Z := "van"]} {[1%Z := "parcel"]}
     = Ok stray_solution
  /\ items_at "unassigned" stray_solution !! 0%nat
     = Some (JDict [("id", JInt 4)]).
Proof.
  destruct (lookups_fail_open stray_solution {[1%Z := "van"]}
              {[1%Z := "parcel"]}) as (_ & Hreturns & Hsame).
  split; [exact (Hreturns stray_solution_reconcilable)|].
  split; [reflexivity|].
  apply (Hsame stray_solution); reflexivity.
Defined.

(** ** Translating, then reconciling *)

Section RoundTrip.
Variable py_repr : json -> string.

Lemma identity_map_intro prefix key entities ids :
  Forall (has_field key) entities ->
  (forall (k : nat) fields,
     entities !! k = Some (JDict fields) ->
     ids !! (1 + Z.of_nat k)%Z
     = Some (external_id py_repr prefix (1 + Z.of_nat k) fields)) ->
  identity_map py_repr prefix entities ids.
Proof.
  intros Hdicts Hids i Hi.
  destruct (lookup_lt_is_Some_2 entities (Z.to_nat (i - 1))) as [x Hx]; [lia|].
  destruct (proj1 (Forall_lookup _ _) Hdicts _ _ Hx) as (fields & _ & -> & _).
  exists fields. split; [done|].
  specialize (Hids _ _ Hx). by replace (1 + Z.of_nat (Z.to_nat (i - 1)))%Z
    with i in Hids by lia.
Qed.

Lemma list_or_missing_lookup key obj P (k : nat) x :
  list_or_missing key obj P -> items_at key obj !! k = Some x -> P x.
Proof.
  unfold items_at. intros [->|(items & -> & HP)]; [by rewrite lookup_nil|].
  intros Hk. by eapply (proj1 (Forall_lookup _ _) HP).
Qed.

(** Annotating an entry that names a position of the identity map. *)
Lemma annotate_refers key tag prefix entities ids entry i :
  identity_map py_repr prefix entities ids ->
  field key entry = Some (JInt i) ->
  (1 ≤ i ≤ Z.of_nat (length entities))%Z ->
  exists fields entity,
    entry = JDict fields
    /\ entities !! Z.to_nat (i - 1) = Some (JDict entity)
    /\ annotate key tag ids entry
       = Ok (JDict (dict_set tag (JStr (external_id py_repr prefix i entity))
                      fields)).
Proof.
  intros Hids Hkey Hi. destruct (Hids i Hi) as (entity & Hentity & Hlookup).
  destruct entry as [| | | | | |fields]; try discriminate. simpl in Hkey.
  exists fields, entity. split; [done|]. split; [done|].
  apply annotate_found with (i := i); [|done].
  unfold get_or_none. by rewrite Hkey.
Qed.

Lemma annotate_step_total prefix jobs job_map step :
  identity_map py_repr prefix jobs job_map ->
  step_refers (length jobs) step ->
  exists step', annotate "job" "job_external_id" job_map step = Ok step'.
Proof.
  intros Hids [[fields ->] [Hnone|(j & Hj & Hrange)]].
  - exists (JDict fields). apply annotate_absent.
    unfold get_or_none. simpl in Hnone. by rewrite Hnone.
  - destruct (annotate_refers "job" "job_external_id" _ _ _ _ _
                Hids Hj Hrange) as (? & ? & _ & _ & ->).
    eauto.
Qed.

Lemma annotate_route_total vehicles jobs vehicle_map job_map route :
  identity_map py_repr "vehicle-" vehicles vehicle_map ->
  identity_map py_repr "job-" jobs job_map ->
  refers "vehicle" (length vehicles) route ->
  list_or_missing "steps" route (step_refers (length jobs)) ->
  exists route', annotate_route vehicle_map job_map route = Ok route'.
Proof.
  intros Hvm Hjm (i & Hi & Hrange) Hsteps.
  destruct (annotate_refers "vehicle" "vehicle_external_id" _ _ _ _ _
              Hvm Hi Hrange) as (fields & vehicle & -> & _ & Hroute).
  unfold annotate_route. rewrite Hroute, bind_Ok_l.
  apply for_each_in_total; [eauto|].
  unfold field. rewrite dict_get_set_ne by done.
  destruct Hsteps as [?|(steps & ? & Hall)]; [by left|right].
  exists steps. split; [done|].
  eapply Forall_impl; [exact Hall|].
  intros step. by apply annotate_step_total with (prefix := "job-").
Qed.

Lemma add_external_ids_total vehicles jobs vehicle_map job_map solution :
  identity_map py_repr "vehicle-" vehicles vehicle_map ->
  identity_map py_repr "job-" jobs job_map ->
  references_assigned (length vehicles) (length jobs) solution ->
  exists annotated,
    add_external_ids solution vehicle_map job_map = Ok annotated.
Proof.
  intros Hvm Hjm (Hdict & Hroutes & Hunassigned). unfold add_external_ids.
  destruct (for_each_in_total "routes"
              (annotate_route vehicle_map job_map) solution Hdict)
    as [solution' Hsolution'].
  { destruct Hroutes as [?|(routes & ? & Hall)]; [by left|right].
    exists routes. split; [done|].
    eapply Forall_impl; [exact Hall|].
    intros route [? ?]. by eapply annotate_route_total. }
  rewrite Hsolution', bind_Ok_l.
  apply for_each_in_Ok in Hsolution' as (_ & Hframe & _ & Hdict').
  apply for_each_in_total; [done|].
  rewrite Hframe by done.
  destruct Hunassigned as [?|(entries & ? & Hall)]; [by left|right].
  exists entries. split; [done|].
  eapply Forall_impl; [exact Hall|].
  intros entry (j & Hj & Hrange).
  destruct (annotate_refers "id" "job_external_id" _ _ _ _ _
              Hjm Hj Hrange) as (? & ? & _ & _ & ->).
  eauto.
Qed.

End RoundTrip.

(** C2, counterexample: the vehicle's [id] is the number 7; the payload is
    valid, and the route of vehicle 1 is annotated with the string ["7"],
    which is not the value of the [id] field. *)
Lemma numeric_id_is_not_returned_exactly :
  let vehicle := [("id", JInt 7); ("capacity", JInt 10)] in
  let payload :=
    JDict [("depot", JDict [("location", JList [JInt 7; JInt 43])]);
           ("vehicles", JList [JDict vehicle]);
           ("jobs", JList [JDict [("location", JList [JInt 7; JInt 43])]])] in
  let solution := JDict [("routes", JList [JDict [("vehicle", JInt 1)]])] in
  validate_payload payload = []
  /\ exists vroom_request vehicle_map job_map,
       build_vroom_request no_repr payload
       = Ok (vroom_request, vehicle_map, job_map)
       /\ add_external_ids solution vehicle_map job_map
          = Ok (JDict [("routes",
                        JList [JDict [("vehicle", JInt 1);
                                      ("vehicle_external_id", JStr "7")]])])
       /\ dict_get "id" vehicle = Some (JInt 7)
       /\ JStr "7" ≠ JInt 7.
Proof. split; [reflexivity|]. do 3 eexists. by repeat split. Qed.

(** C2, as amended: on a payload the validator accepts the translation
    returns, and reconciling any solution that names only assigned indices
    returns too and annotates every route, every step with a job and every
    unassigned entry with the external id of the entity at that index: the
    string [str(id)] of its [id] field (the [id] itself when it is a
    string), or ["vehicle-<i>"] / ["job-<i>"] when it has none. *)
Theorem translate_then_reconcile (py_repr : json -> string) (payload : json) :
  validate_payload payload = [] ->
  exists vroom_request vehicle_map job_map,
    build_vroom_request py_repr payload
    = Ok (vroom_request, vehicle_map, job_map)
    /\ forall solution,
         references_assigned (length (items_at "vehicles" payload))
           (length (items_at "jobs" payload)) solution ->
         exists annotated,
           add_external_ids solution vehicle_map job_map = Ok annotated
           /\ (forall (k : nat) route i,
                 items_at "routes" solution !! k = Some route ->
                 field "vehicle" route = Some (JInt i) ->
                 exists vehicle route',
                   items_at "vehicles" payload !! Z.to_nat (i - 1)
                   = Some (JDict vehicle)
                   /\ items_at "routes" annotated !! k = Some route'
                   /\ field "vehicle_external_id" route'
                      = Some (JStr (external_id py_repr "vehicle-" i vehicle)))
           /\ (forall (k s : nat) route step j,
                 items_at "routes" solution !! k = Some route ->
                 items_at "steps" route !! s = Some step ->
                 field "job" step = Some (JInt j) ->
                 exists job route' step',
                   items_at "jobs" payload !! Z.to_nat (j - 1)
                   = Some (JDict job)
                   /\ items_at "routes" annotated !! k = Some route'
                   /\ items_at "steps" route' !! s = Some step'
                   /\ field "job_external_id" step'
                      = Some (JStr (external_id py_repr "job-" j job)))
           /\ (forall (k : nat) entry j,
                 items_at "unassigned" solution !! k = Some entry ->
                 field "id" entry = Some (JInt j) ->
                 exists job entry',
                   items_at "jobs" payload !! Z.to_nat (j - 1)
                   = Some (JDict job)
                   /\ items_at "unassigned" annotated !! k = Some entry'
                   /\ field "job_external_id" entry'
                      = Some (JStr (external_id py_repr "job-" j job))).
Proof.
  intros (fields & depot & location & vehicles & jobs
          & -> & Hd & Hl & Hv & Hvs & Hj & Hjs)%validate_payload_nil.
  destruct (build_vroom_request_maps py_repr fields depot location
              vehicles jobs Hd Hl Hv Hvs Hj Hjs)
    as (req & vm & jm & Hbuild & Hvm & Hjm).
  apply (identity_map_intro py_repr "vehicle-" "capacity") in Hvm; [|done].
  apply (identity_map_intro py_repr "job-" "location") in Hjm; [|done].
  exists req, vm, jm. split; [done|].
  assert (Hiv : items_at "vehicles" (JDict fields) = vehicles)
    by (unfold items_at; simpl; by rewrite Hv).
  assert (Hij : items_at "jobs" (JDict fields) = jobs)
    by (unfold items_at; simpl; by rewrite Hj).
  rewrite Hiv, Hij. intros solution Hrefs.
  destruct (add_external_ids_total py_repr vehicles jobs vm jm solution
              Hvm Hjm Hrefs) as [annotated Hann].
  exists annotated. split; [done|].
  destruct Hrefs as (_ & Hroutes & Hunassigned).
  apply add_external_ids_Ok in Hann as (Hroutes' & Hunassigned' & _).
  split; [|split].
  - intros k route i Hk Hi.
    destruct (list_or_missing_lookup _ _ _ _ _ Hroutes Hk)
      as [(i' & Hi' & Hrange) _].
    rewrite Hi in Hi'. injection Hi' as <-.
    destruct (Forall2_lookup_l _ _ _ _ _ Hroutes' Hk) as (route' & Hk' & Hr).
    apply annotate_route_Ok in Hr as (route1 & H1 & _ & Hframe).
    destruct (annotate_refers py_repr "vehicle" "vehicle_external_id" _ _ _ _ _
                Hvm Hi Hrange) as (rf & vehicle & -> & Hvehicle & Hroute).
    rewrite Hroute in H1. injection H1 as <-.
    exists vehicle, route'. split; [done|]. split; [done|].
    rewrite Hframe by done. simpl. apply dict_get_set_eq.
  - intros k s route step j Hk Hs Hjob.
    destruct (list_or_missing_lookup _ _ _ _ _ Hroutes Hk) as [_ Hsteps].
    destruct (list_or_missing_lookup _ _ _ _ _ Hsteps Hs)
      as [_ [Hnone|(j' & Hj' & Hrange)]]; [congruence|].
    rewrite Hjob in Hj'. injection Hj' as <-.
    destruct (Forall2_lookup_l _ _ _ _ _ Hroutes' Hk) as (route' & Hk' & Hr).
    apply annotate_route_Ok in Hr as (_ & _ & Hsteps' & _).
    destruct (Forall2_lookup_l _ _ _ _ _ Hsteps' Hs) as (step' & Hs' & Hstep).
    destruct (annotate_refers py_repr "job" "job_external_id" _ _ _ _ _
                Hjm Hjob Hrange) as (sf & job & -> & Hjob' & Hann).
    rewrite Hann in Hstep. injection Hstep as <-.
    eexists job, route', _. split; [done|]. split; [done|].
    split; [exact Hs'|]. simpl. apply dict_get_set_eq.
  - intros k entry j Hk Hid.
    destruct (list_or_missing_lookup _ _ _ _ _ Hunassigned Hk)
      as (j' & Hj' & Hrange).
    rewrite Hid in Hj'. injection Hj' as <-.
    destruct (Forall2_lookup_l _ _ _ _ _ Hunassigned' Hk)
      as (entry' & Hk' & He).
    destruct (annotate_refers py_repr "id" "job_external_id" _ _ _ _ _
                Hjm Hid Hrange) as (ef & job & -> & Hjob' & Hann).
    rewrite Hann in He. injection He as <-.
    eexists job, _. split; [done|]. split; [exact Hk'|].
    simpl. apply dict_get_set_eq.
Qed.

Lemma example_solution_references : references_assigned 1 1 example_solution.
Proof.
  assert (Hstart : forall kind, step_refers 1 (JDict [("type", JStr kind)])).
  { intros kind. split; [by eexists | by left]. }
  split; [by eexists|]. split.
  - right. eexists. split; [reflexivity|].
    constructor; [|constructor]. split; [by exists 1%Z|].
    right. eexists. split; [reflexivity|].
    constructor; [apply Hstart|].
    constructor; [|constructor; [apply Hstart | constructor]].
    split; [by eexists|]. right. by exists 1%Z.
  - right. eexists. split; [reflexivity|]. constructor.
Qed.

Lemma translate_then_reconcile_witness :
  validate_payload example_payload = []
  /\ exists vroom_request vehicle_map job_map annotated route',
       build_vroom_request no_repr example_payload
       = Ok (vroom_request, vehicle_map, job_map)
       /\ add_external_ids example_solution vehicle_map job_map = Ok annotated
       /\ items_at "routes" annotated !! 0%nat = Some route'
       /\ field "vehicle_external_id" route' = Some (JStr "vehicle-1").
Proof.
  split; [reflexivity|].
  destruct (translate_then_reconcile no_repr example_payload eq_refl)
    as (req & vm & jm & Hbuild & Hall).
  destruct (Hall example_solution example_solution_references)
    as (annotated & Hann & Hroutes & _).
  destruct (Hroutes 0%nat _ 1%Z eq_refl eq_refl)
    as (vehicle & route' & Hvehicle & Hroute' & Hid).
  injection Hvehicle as <-.
  by exists req, vm, jm, annotated, route'.
Defined.

(** ** The solver run and the optimize endpoint *)

Lemma example_request_accepted : accepted example_request example_payload.
Proof. by repeat split. Qed.

Lemma run_vroom_files input_path solver vroom_request files :
  files !! input_path = None ->
  snd (run_vroom input_path solver vroom_request files) = files.
Proof.
  intros Hfresh. unfold run_vroom, unlink. simpl.
  rewrite lookup_insert_eq. simpl. by apply delete_insert_id.
Qed.

Lemma run_vroom_Ok input_path solver vroom_request files solution :
  fst (run_vroom input_path solver vroom_request files) = Ok solution ->
  exists stdout stderr,
    solver = Completed 0 stdout stderr (Ok solution)
    /\ strip stdout ≠ EmptyString.
Proof.
  unfold run_vroom. destruct solver as [rc out err dec| | |]; simpl;
    try discriminate.
  destruct (decide (rc ≠ 0)) as [|Hrc%dec_stable]; [discriminate|].
  destruct (decide (strip out = EmptyString)); [discriminate|].
  intros ->. subst rc. eauto.
Qed.

Lemma run_vroom_failed input_path vroom_request files rc stdout stderr decoded :
  rc ≠ 0%Z ->
  fst (run_vroom input_path (Completed rc stdout stderr decoded)
         vroom_request files)
  = raise RuntimeError
      (if decide (strip stderr = EmptyString) then "Unknown VROOM error"
       else strip stderr).
Proof. intros Hrc. unfold run_vroom. simpl. by rewrite decide_True. Qed.

Lemma run_vroom_expired input_path vroom_request files :
  fst (run_vroom input_path Expired vroom_request files)
  = raise TimeoutExpired "Command timed out".
Proof. reflexivity. Qed.

Section OptimizeFacts.
Variable py_repr : json -> string.

Lemma solve_files input_path solver payload files :
  files !! input_path = None ->
  snd (solve py_repr input_path solver payload files) = files.
Proof.
  intros Hfresh. unfold solve.
  destruct (build_vroom_request py_repr payload) as [[[req vm] jm]|e];
    [|done].
  pose proof (run_vroom_files input_path solver req files Hfresh) as Hrun.
  by destruct (run_vroom input_path solver req files).
Qed.

Lemma solve_valid input_path solver payload files :
  validate_payload payload = [] ->
  exists vroom_request vehicle_map job_map,
    build_vroom_request py_repr payload
    = Ok (vroom_request, vehicle_map, job_map)
    /\ fst (solve py_repr input_path solver payload files)
       = (solution ← fst (run_vroom input_path solver vroom_request files);
          add_external_ids solution vehicle_map job_map).
Proof.
  intros Hvalid.
  destruct (build_vroom_request_present py_repr payload)
    as (req & vm & jm & E); [by apply validate_payload_nil|].
  exists req, vm, jm. split; [done|]. unfold solve. rewrite E.
  by destruct (run_vroom input_path solver req files).
Qed.

Lemma handle_optimize_accepted req payload input_path solver files :
  accepted req payload ->
  handle_optimize py_repr req input_path solver files
  = (match fst (solve py_repr input_path solver payload files) with
     | Ok solution =>
         summary ← py_get solution "summary" (JDict []);
         routes ← py_get solution "routes" (JList []);
         unassigned ← py_get solution "unassigned" (JList []);
         Ok (json_response 200
               (JDict [("status", JStr "ok"); ("summary", summary);
                       ("routes", routes); ("unassigned", unassigned);
                       ("raw", solution)]))
     | Raise e => solver_failure e
     end,
     snd (solve py_repr input_path solver payload files)).
Proof.
  intros (Hdigit & Hint & Hbody & Hvalid). unfold handle_optimize.
  rewrite Hdigit, Hint, Hbody, Hvalid. simpl.
  by destruct (solve py_repr input_path solver payload files).
Qed.

Lemma handle_optimize_files req input_path solver files :
  files !! input_path = None ->
  snd (handle_optimize py_repr req input_path solver files) = files.
Proof.
  intros Hfresh. unfold handle_optimize.
  destruct (isdigit (content_length req)); simpl; [|done].
  destruct (py_int (content_length req)); [|done].
  destruct (decoded_body req) as [payload|e]; [|by destruct (class e)].
  destruct (validate_payload payload); [|done].
  pose proof (solve_files input_path solver payload files Hfresh) as Hsolve.
  by destruct (solve py_repr input_path solver payload files).
Qed.

End OptimizeFacts.

(** C4, counterexample: the solver exits with code 1 and the error text
    ["[Error] Invalid input."] followed by a line feed; [details] lacks the
    line feed. *)
Lemma details_are_not_verbatim :
  let stderr := "[Error] Invalid input." +:+ newline in
  fst (handle_optimize no_repr example_request "/tmp/tmpk3v9x2.json"
         (Completed 1 EmptyString stderr no_json) ∅)
  = Ok (json_response 502
          (JDict [("error", JStr "VROOM optimization failed.");
                  ("details", JStr "[Error] Invalid input.")]))
  /\ "[Error] Invalid input." ≠ stderr.
Proof. split; [reflexivity|discriminate]. Qed.

(** C4, as amended: when the solver exits with a code other than 0 and
    its captured streams decode as text, so that [subprocess.run] returns,
    the optimize endpoint answers 502 and [details] is the error text with
    the white space at both ends stripped, or the generic message when
    nothing is left; it is the text itself when the text is not empty and
    has no white space at its ends. *)
Theorem solver_failure_details (py_repr : json -> string) (req : request)
    (payload : json) (input_path : string) (files : gmap string json)
    (returncode : Z) (stdout stderr : string) (decoded : result json) :
  accepted req payload ->
  returncode ≠ 0%Z ->
  fst (handle_optimize py_repr req input_path
         (Completed returncode stdout stderr decoded) files)
  = Ok (json_response 502
          (JDict [("error", JStr "VROOM optimization failed.");
                  ("details",
                   JStr (if decide (strip stderr = EmptyString)
                         then "Unknown VROOM error" else strip stderr))]))
  /\ (strip stderr = stderr -> stderr ≠ EmptyString ->
      fst (handle_optimize py_repr req input_path
             (Completed returncode stdout stderr decoded) files)
      = Ok (json_response 502
              (JDict [("error", JStr "VROOM optimization failed.");
                      ("details", JStr stderr)]))).
Proof.
  intros Hreq Hrc.
  assert (E : fst (handle_optimize py_repr req input_path
                     (Completed returncode stdout stderr decoded) files)
              = Ok (json_response 502
                      (JDict [("error", JStr "VROOM optimization failed.");
                              ("details",
                               JStr (if decide (strip stderr = EmptyString)
                                     then "Unknown VROOM error"
                                     else strip stderr))]))).
  { rewrite (handle_optimize_accepted py_repr req payload) by done.
    destruct (solve_valid py_repr input_path
                (Completed returncode stdout stderr decoded) payload files)
      as (vr & vm & jm & _ & ->); [apply Hreq|].
    by rewrite run_vroom_failed. }
  split; [exact E|].
  intros Hstrip Hne. rewrite E, Hstrip. by rewrite decide_False.
Qed.

Lemma solver_failure_details_witness :
  fst (handle_optimize no_repr example_request "/tmp/tmpk3v9x2.json"
         (Completed 2 EmptyString "  " no_json) ∅)
  = Ok (json_response 502
          (JDict [("error", JStr "VROOM optimization failed.");
                  ("details", JStr "Unknown VROOM error")])).
Proof.
  apply (solver_failure_details no_repr example_request example_payload
           "/tmp/tmpk3v9x2.json" ∅ 2 EmptyString "  " no_json).
  - exact example_request_accepted.
  - discriminate.
Defined.

(** C8: whatever the request and whatever the solver does (it ends with
    any exit code and any output, it is killed at the timeout, it does not
    start), the scratch directory after the request is the one before it:
    the file written for the solver is gone; and a solver killed at the
    timeout is answered with 504. *)
Theorem scratch_file_is_removed (py_repr : json -> string) (req : request)
    (input_path : string) (solver : solver_outcome)
    (files : gmap string json) :
  files !! input_path = None ->
  snd (handle_optimize py_repr req input_path solver files) = files
  /\ (forall vroom_request,
        snd (run_vroom input_path solver vroom_request files) !! input_path
        = None)
  /\ (forall payload,
        accepted req payload -> solver = Expired ->
        fst (handle_optimize py_repr req input_path solver files)
        = Ok (json_response 504
                (JDict [("error", JStr "Optimization timed out.")]))).
Proof.
  intros Hfresh. split; [by apply handle_optimize_files|]. split.
  - intros vr. by rewrite run_vroom_files.
  - intros payload Hreq ->.
    rewrite (handle_optimize_accepted py_repr req payload) by done.
    destruct (solve_valid py_repr input_path Expired payload files)
      as (vr & vm & jm & _ & ->); [apply Hreq|].
    by rewrite run_vroom_expired.
Qed.

Lemma scratch_file_is_removed_witness :
  let files : gmap string json := {["/tmp/other.json" := JNull]} in
  snd (handle_optimize no_repr example_request "/tmp/tmpk3v9x2.json"
         Expired files) = files.
Proof.
  intros files.
  apply (scratch_file_is_removed no_repr example_request
           "/tmp/tmpk3v9x2.json" Expired files).
  reflexivity.
Defined.

(** C1, counterexample: a request answered with 200 whose [raw] holds the
    annotations [vehicle_external_id] and [job_external_id], so is not the
    solver's output. *)
Lemma raw_is_annotated :
  exists resp,
    fst (handle_optimize no_repr example_request "/tmp/tmpk3v9x2.json"
           (Completed 0 one_stop_stdout EmptyString (Ok one_stop_solution)) ∅)
    = Ok resp
    /\ status_code resp = 200%Z
    /\ field "raw" (body resp)
       = Some (JDict
                 [("routes",
                   JList [JDict [("vehicle", JInt 1);
                                 ("steps",
                                  JList [JDict [("job", JInt 1);
                                                ("job_external_id",
                                                 JStr "job-1")]]);
                                 ("vehicle_external_id", JStr "vehicle-1")]]);
                  ("unassigned", JList [])])
    /\ field "raw" (body resp) ≠ Some one_stop_solution.
Proof. eexists. split; [reflexivity|]. by repeat split. Qed.

Lemma solver_failure_not_200 e resp :
  solver_failure e = Ok resp -> status_code resp ≠ 200%Z.
Proof.
  unfold solver_failure. destruct (class e); try discriminate;
    by intros [= <-].
Qed.

(** C1, as amended: in a 200 response of the optimize endpoint, [raw] is
    the reconciled solution itself, with its annotations: the solver's
    output with every route, step and unassigned entry replaced by what
    the reconciler makes of it and every other field as the solver gave
    it; [routes] and [unassigned] are the lists of that same solution
    (an empty list when it has none). *)
Theorem ok_response_carries_reconciled_solution (py_repr : json -> string)
    (req : request) (input_path : string) (solver : solver_outcome)
    (files : gmap string json) (resp : response) :
  fst (handle_optimize py_repr req input_path solver files) = Ok resp ->
  status_code resp = 200%Z ->
  exists payload vroom_request vehicle_map job_map stdout stderr
         solution annotated,
    decoded_body req = Ok payload
    /\ build_vroom_request py_repr payload
       = Ok (vroom_request, vehicle_map, job_map)
    /\ solver = Completed 0 stdout stderr (Ok solution)
    /\ add_external_ids solution vehicle_map job_map = Ok annotated
    /\ field "raw" (body resp) = Some annotated
    /\ field "routes" (body resp)
       = Some (default (JList []) (field "routes" annotated))
    /\ field "unassigned" (body resp)
       = Some (default (JList []) (field "unassigned" annotated))
    /\ Forall2 (fun r r' => annotate_route vehicle_map job_map r = Ok r')
         (items_at "routes" solution) (items_at "routes" annotated)
    /\ Forall2 (fun u u' => annotate "id" "job_external_id" job_map u = Ok u')
         (items_at "unassigned" solution) (items_at "unassigned" annotated)
    /\ (forall k, k ≠ "routes" -> k ≠ "unassigned" ->
                  field k annotated = field k solution).
Proof.
  unfold handle_optimize.
  destruct (isdigit (content_length req)); simpl;
    [|intros [= <-]; discriminate].
  destruct (py_int (content_length req)); [|discriminate].
  destruct (decoded_body req) as [payload|e];
    [|destruct (class e); simpl; try discriminate; intros [= <-]; discriminate].
  destruct (validate_payload payload) as [|msg msgs] eqn:Hvalid;
    [|intros [= <-]; discriminate].
  destruct (solve_valid py_repr input_path solver payload files Hvalid)
    as (vr & vm & jm & Hbuild & Hsolve).
  destruct (solve py_repr input_path solver payload files) as [outcome files'].
  cbn [fst] in Hsolve |- *. subst outcome.
  destruct (fst (run_vroom input_path solver vr files))
    as [solution|e] eqn:Hrun; cbn [mbind result_bind];
    [|intros H%solver_failure_not_200; contradiction].
  apply run_vroom_Ok in Hrun as (out & err & -> & _).
  destruct (add_external_ids solution vm jm) as [annotated|e] eqn:Hann;
    [|intros H%solver_failure_not_200; contradiction].
  pose proof (add_external_ids_Ok _ _ _ _ Hann) as (Hroutes & Hunassigned & Hframe).
  assert (exists fields, annotated = JDict fields) as [fields ->].
  { unfold add_external_ids in Hann. inv_bind Hann.
    by apply for_each_in_Ok in Hann as (_ & _ & _ & ?). }
  simpl. intros [= <-] _.
  exists payload, vr, vm, jm, out, err, solution, (JDict fields).
  by repeat split.
Qed.

Lemma ok_response_carries_reconciled_solution_witness :
  exists resp annotated,
    fst (handle_optimize no_repr example_request "/tmp/tmpk3v9x2.json"
           (Completed 0 one_stop_stdout EmptyString (Ok one_stop_solution))
           ∅)
    = Ok resp
    /\ status_code resp = 200%Z
    /\ add_external_ids one_stop_solution {[1%Z := "vehicle-1"]}
         {[1%Z := "job-1"]} = Ok annotated
    /\ field "raw" (body resp) = Some annotated.
Proof.
  destruct (ok_response_carries_reconciled_solution no_repr
              example_request "/tmp/tmpk3v9x2.json"
              (Completed 0 one_stop_stdout EmptyString
                 (Ok one_stop_solution)) ∅
              _ eq_refl eq_refl)
    as (payload & vr & vm & jm & out & err & solution & annotated
        & Hbody & Hbuild & Hsolver & Hann & Hraw & _).
  injection Hsolver as _ _ <-. injection Hbody as <-.
  injection Hbuild as _ <- <-.
  eexists _, annotated. split; [reflexivity|]. split; [reflexivity|].
  split; [exact Hann | exact Hraw].
Defined.

(** ** The health endpoint *)

(** C6, counterexample: the binary is there and the routing engine answers
    200 with the JSON text [[]]: the handler raises and sends neither 200
    nor 503; and when the engine reports the code 7, [osrm_detail] is the
    number 7, not a string. *)
Lemma health_probe_unhandled :
  handle_health true (ProbeAnswered 200 (Ok (JList [])))
  = raise AttributeError "object has no attribute 'get'"
  /\ handle_health true (ProbeAnswered 200 (Ok (JDict [("code", JInt 7)])))
     = Ok (json_response 503
             (JDict [("status", JStr "degraded");
                     ("checks",
                      JDict [("vroom_binary", JStr "ok");
                             ("osrm", JStr "down");
                             ("osrm_detail", JInt 7)])])).
Proof. by split. Qed.

Lemma check_osrm_handled probe :
  probe_handled probe ->
  match check_osrm probe with
  | Ok checked => checked = (probe_succeeds probe, reported_detail probe)
  | Raise e =>
      caught_by_health (class e)
      /\ probe_succeeds probe = false
      /\ reported_detail probe = JStr (message e)
  end.
Proof.
  destruct probe as [e|status payload]; simpl; [done|].
  destruct (decide (status ≠ 200)) as [Hne|Heq%dec_stable].
  - intros _. rewrite decide_False by done.
    destruct payload as [v|e]; [|done].
    destruct (field "code" v) as [[| | | |code| |]|]; try done.
    by rewrite bool_decide_eq_false_2 by tauto.
  - subst status. intros [?|H]; [done|]. rewrite decide_True by done.
    destruct payload as [v|e]; [|done]. destruct H as [fields ->]. simpl.
    f_equal. destruct (dict_get "code" fields) as [[| | | |code| |]|]; simpl;
      try done.
    apply bool_decide_ext. tauto.
Qed.

(** C6, as amended: whenever the probe ends in a response (a status other
    than 200, or 200 with a JSON object) or in an error the handler
    catches, the health endpoint answers 200 with status ["ok"] if and only
    if the solver binary exists and the probe succeeds (200 with the code
    ["Ok"]), and 503 with status ["degraded"] otherwise; in both cases
    [checks] reports [vroom_binary] as ok/missing, [osrm] as ok/down, and
    the [osrm_detail]: the reported code as it came, the HTTP status, or
    the error text. *)
Theorem health_report (vroom_ready : bool) (probe : probe_outcome) :
  probe_handled probe ->
  exists resp,
    handle_health vroom_ready probe = Ok resp
    /\ (status_code resp = 200%Z /\ field "status" (body resp) = Some (JStr "ok")
        <-> vroom_ready = true /\ probe_succeeds probe = true)
    /\ (~ (vroom_ready = true /\ probe_succeeds probe = true) ->
        status_code resp = 503%Z
        /\ field "status" (body resp) = Some (JStr "degraded"))
    /\ field "checks" (body resp)
       = Some (JDict [("vroom_binary",
                       JStr (if vroom_ready then "ok" else "missing"));
                      ("osrm",
                       JStr (if probe_succeeds probe then "ok" else "down"));
                      ("osrm_detail", reported_detail probe)]).
Proof.
  intros H%check_osrm_handled. unfold handle_health.
  destruct (check_osrm probe) as [[ready detail]|e].
  - injection H as -> ->. eexists. split; [reflexivity|].
    destruct vroom_ready, (probe_succeeds probe); simpl;
      (split; [intuition congruence|]); (split; [intuition congruence|done]).
  - destruct H as (Hclass & -> & ->).
    assert (E : match class e with
                | HTTPError | URLError | TimeoutError | JSONDecodeError =>
                    Ok (false, JStr (message e))
                | _ => Raise e
                end = Ok (false, JStr (message e))).
    { by destruct Hclass as [-> | [-> | [-> | ->]]]. }
    rewrite E. eexists. split; [reflexivity|].
    destruct vroom_ready; simpl;
      (split; [intuition congruence|]); (split; [intuition congruence|done]).
Qed.

Lemma health_report_witness :
  exists resp,
    handle_health true (ProbeAnswered 200 (Ok (JDict [("code", JStr "Ok")])))
    = Ok resp
    /\ field "checks" (body resp)
       = Some (JDict [("vroom_binary", JStr "ok"); ("osrm", JStr "ok");
                      ("osrm_detail", JStr "Ok")]).
Proof.
  destruct (health_report true
              (ProbeAnswered 200 (Ok (JDict [("code", JStr "Ok")]))))
    as (resp & Hresp & _ & _ & Hchecks).
  - right. by eexists.
  - by exists resp.
Defined.

(** * Further properties of the code *)

(** ** The validator accepts the schema and nothing else *)

Lemma append_if_nil_iff cond msg : append_if cond msg = [] <-> cond = false.
Proof. destruct cond; simpl; split; congruence. Qed.

Lemma is_coord_coordinate v : is_coord v = true <-> coordinate v.
Proof.
  unfold coordinate. split.
  - unfold is_coord.
    destruct v as [| | | | |[|lon [|lat [|? ?]]]|]; try discriminate.
    intros H. exists lon, lat. split; [done|].
    destruct (as_number lon) as [x|] eqn:Hx; [|discriminate].
    destruct (as_number lat) as [y|] eqn:Hy; [|discriminate].
    repeat (apply andb_true_iff in H; destruct H as [H ?]).
    split; apply component_within_spec; eauto.
  - intros (lon & lat & -> & Hlon & Hlat).
    apply component_within_spec in Hlat as (y & Hy & H3 & H4).
    apply component_within_spec in Hlon as (x & Hx & H1 & H2).
    unfold is_coord. by rewrite Hx, Hy, H1, H2, H3, H4.
Qed.

Lemma is_time_window_iff v : is_time_window v = true <-> time_window v.
Proof.
  unfold time_window, is_time_window. split.
  - destruct v as [| | | | |[|lo [|hi [|? ?]]]|]; try discriminate.
    destruct (as_int lo) as [a|] eqn:Ha; [|discriminate].
    destruct (as_int hi) as [b|] eqn:Hb; [|discriminate].
    intros H%bool_decide_eq_true. by exists lo, hi, a, b.
  - intros (lo & hi & a & b & -> & -> & -> & Hab).
    by apply bool_decide_eq_true.
Qed.

Lemma is_positive_int_iff v : is_positive_int v = true <-> int_above 0 v.
Proof.
  unfold is_positive_int, int_above. destruct (as_int v) as [z|].
  - rewrite bool_decide_eq_true. split; [eauto|]. by intros (? & [= <-] & ?).
  - split; [done|]. by intros (? & ? & _).
Qed.

Lemma service_ok_iff v :
  service_ok v = true <-> v = JNull \/ int_above (-1) v.
Proof.
  unfold int_above. destruct v as [|b|z|f|s|items|fields]; simpl.
  - split; [by left | done].
  - destruct b; (split; [|done]); intros _; right; eexists;
      (split; [done|lia]).
  - rewrite bool_decide_eq_true. split.
    + intros H. right. eexists. split; [done|lia].
    + intros [?|(z' & [= <-] & ?)]; [done|lia].
  - split; [done | by intros [?|(? & ? & ?)]].
  - split; [done | by intros [?|(? & ? & ?)]].
  - split; [done | by intros [?|(? & ? & ?)]].
  - split; [done | by intros [?|(? & ? & ?)]].
Qed.

(** The guard [key in d and not check(d.get(key))] of an optional field. *)
Lemma optional_check key fields (check : json -> bool) (P : json -> Prop) :
  (forall v, check v = true <-> P v) ->
  dict_has key fields && negb (check (get_or_none key fields)) = false
  <-> optional key fields P.
Proof.
  intros Hcheck. unfold dict_has, get_or_none, optional.
  destruct (dict_get key fields) as [v|].
  - rewrite bool_decide_eq_true_2 by eauto. simpl.
    rewrite negb_false_iff, Hcheck. split; [by intros ? ? [= <-]|eauto].
  - rewrite bool_decide_eq_false_2 by (by intros [? ?]). by split.
Qed.

Lemma validate_vehicle_valid idx vehicle :
  validate_vehicle idx vehicle = [] <-> valid_vehicle vehicle.
Proof.
  unfold valid_vehicle. destruct vehicle as [| | | | | |fields];
    try (split; [discriminate | by intros (? & ? & ? & _)]).
  unfold validate_vehicle.
  rewrite !app_nil, !append_if_nil_iff, negb_false_iff, is_positive_int_iff.
  rewrite !(optional_check _ _ is_coord coordinate)
    by apply is_coord_coordinate.
  rewrite (optional_check _ _ is_time_window time_window)
    by apply is_time_window_iff.
  unfold get_or_none. split.
  - intros (Hc & Hs & He & Htw).
    destruct (dict_get "capacity" fields) as [c|] eqn:Hcap;
      [|by destruct Hc as (? & ? & _)].
    by exists fields, c.
  - intros (? & c & [= <-] & Hcap & Hc & Hs & He & Htw). by rewrite Hcap.
Qed.

Lemma time_windows_errors_nil at_ tws :
  time_windows_errors at_ tws = []
  <-> exists entries, tws = JList entries /\ entries ≠ []
                      /\ Forall time_window entries.
Proof.
  unfold time_windows_errors.
  destruct tws as [| | | | |[|tw entries]|];
    try (split; [discriminate | by intros (? & ? & ?)]).
  - split; [discriminate | by intros (? & [= <-] & ? & _)].
  - rewrite append_if_nil_iff. split.
    + intros H. exists (tw :: entries). split; [done|]. split; [done|].
      apply Forall_forall. intros x Hx. apply is_time_window_iff.
      apply negb_false_iff. apply list_elem_of_In in Hx.
      destruct (negb (is_time_window x)) eqn:E; [|done].
      assert (existsb (fun tw => negb (is_time_window tw)) (tw :: entries)
              = true) as Hex by (apply existsb_exists; eauto).
      congruence.
    + intros (? & [= <-] & _ & Hall).
      destruct (existsb _ _) eqn:E; [|done].
      apply existsb_exists in E as (x & Hx & Hbad).
      apply list_elem_of_In in Hx.
      apply (proj1 (Forall_forall _ _) Hall), is_time_window_iff in Hx.
      by rewrite Hx in Hbad.
Qed.

Lemma validate_job_valid idx job :
  validate_job idx job = [] <-> valid_job job.
Proof.
  unfold valid_job. destruct job as [| | | | | |fields];
    try (split; [discriminate | by intros (? & ? & ? & _)]).
  unfold validate_job.
  rewrite !app_nil, !append_if_nil_iff, !negb_false_iff.
  rewrite is_positive_int_iff, service_ok_iff.
  assert (Hloc : is_coord (get_or_none "location" fields) = true
                 <-> exists location,
                       dict_get "location" fields = Some location
                       /\ coordinate location).
  { unfold get_or_none. destruct (dict_get "location" fields) as [v|]; simpl.
    - rewrite is_coord_coordinate. split; [eauto|].
      by intros (? & [= <-] & ?).
    - split; [done | by intros (? & ? & _)]. }
  assert (Hdemand : int_above 0 (default (JInt 1) (dict_get "demand" fields))
                    <-> optional "demand" fields (int_above 0)).
  { unfold optional. destruct (dict_get "demand" fields) as [v|]; simpl.
    - split; [by intros ? ? [= <-] | eauto].
    - split; [done|]. intros _. by exists 1%Z. }
  assert (Hservice :
            get_or_none "service" fields = JNull
            \/ int_above (-1) (get_or_none "service" fields)
            <-> optional "service" fields
                  (fun v => v = JNull \/ int_above (-1) v)).
  { unfold optional, get_or_none.
    destruct (dict_get "service" fields) as [v|]; simpl.
    - split; [by intros ? ? [= <-] | eauto].
    - split; [done | by left]. }
  assert (Htws :
            (if dict_has "time_windows" fields
             then time_windows_errors ("`jobs[" +:+ pretty idx +:+ "]")
                    (get_or_none "time_windows" fields)
             else []) = []
            <-> optional "time_windows" fields
                  (fun v => exists entries,
                              v = JList entries /\ entries ≠ []
                              /\ Forall time_window entries)).
  { unfold optional, dict_has, get_or_none.
    destruct (dict_get "time_windows" fields) as [v|].
    - rewrite bool_decide_eq_true_2 by eauto. simpl.
      rewrite time_windows_errors_nil. split; [by intros ? ? [= <-] | eauto].
    - rewrite bool_decide_eq_false_2 by (by intros [? ?]). by split. }
  rewrite Hloc, Hdemand, Hservice, Htws. split.
  - intros ((location & ? & ?) & ? & ? & ?). by exists fields, location.
  - intros (? & location & [= <-] & ? & ? & ? & ? & ?). eauto 10.
Qed.

Lemma flat_map_enumerate_nil_iff {A B : Type} (f : Z -> A -> list B)
    (P : A -> Prop) start items :
  (forall idx x, f idx x = [] <-> P x) ->
  flat_map (fun ix => f (fst ix) (snd ix)) (enumerate start items) = []
  <-> Forall P items.
Proof.
  intros Hf. revert start. induction items as [|x rest IH]; intros start; simpl.
  - split; [constructor | done].
  - rewrite app_nil, Hf, IH, Forall_cons. done.
Qed.

(** X1: the validator returns no message exactly for the payloads of the
    request schema: an object with a [depot] object holding a coordinate
    [location], a non-empty [vehicles] list of valid vehicles and a
    non-empty [jobs] list of valid jobs. *)
Theorem validate_payload_accepts_exactly (payload : json) :
  validate_payload payload = [] <-> valid_request payload.
Proof.
  unfold valid_request. destruct payload as [| | | | | |fields];
    try (split; [discriminate | by intros (? & ? & ? & ? & ? & ? & _)]).
  unfold validate_payload. rewrite !app_nil. split.
  - intros (Hdepot & Hvehicles & Hjobs).
    destruct (get_or_none "depot" fields) as [| | | | | |depot] eqn:Hd;
      try discriminate.
    apply get_or_none_some in Hd; [|done].
    apply append_if_nil_iff, negb_false_iff, is_coord_get_or_none in Hdepot
      as (location & Hlocation & Hcoord%is_coord_coordinate).
    destruct (get_or_none "vehicles" fields)
      as [| | | | |[|v vehicles]|] eqn:Hv; try discriminate.
    apply get_or_none_some in Hv; [|done].
    destruct (get_or_none "jobs" fields) as [| | | | |[|j jobs]|] eqn:Hj;
      try discriminate.
    apply get_or_none_some in Hj; [|done].
    apply (flat_map_enumerate_nil_iff validate_vehicle valid_vehicle)
      in Hvehicles; [|apply validate_vehicle_valid].
    apply (flat_map_enumerate_nil_iff validate_job valid_job)
      in Hjobs; [|apply validate_job_valid].
    exists fields, depot, location, (v :: vehicles), (j :: jobs).
    by repeat split.
  - intros (? & depot & location & vehicles & jobs & [= <-] & Hd & Hl & Hcoord
            & Hv & Hvne & Hvs & Hj & Hjne & Hjs).
    destruct vehicles as [|v vehicles]; [done|].
    destruct jobs as [|j jobs]; [done|].
    apply is_coord_coordinate in Hcoord.
    unfold get_or_none. rewrite Hd, Hv, Hj. cbn [default from_option id].
    rewrite Hl. cbn [default from_option id]. rewrite Hcoord.
    split; [done|]. split.
    + by apply (flat_map_enumerate_nil_iff validate_vehicle valid_vehicle);
        [apply validate_vehicle_valid|].
    + by apply (flat_map_enumerate_nil_iff validate_job valid_job);
        [apply validate_job_valid|].
Qed.

(** X2: the three top-level checks report independently of one another: a
    payload object without [depot], without [vehicles] or without [jobs]
    gets the message that names the missing field. *)
Theorem missing_field_is_reported (fields : list (string * json)) :
  (dict_get "depot" fields = None ->
   "`depot` is required and must be an object."
   ∈ validate_payload (JDict fields))
  /\ (dict_get "vehicles" fields = None ->
      "`vehicles` is required and must be a non-empty array."
      ∈ validate_payload (JDict fields))
  /\ (dict_get "jobs" fields = None ->
      "`jobs` is required and must be a non-empty array."
      ∈ validate_payload (JDict fields)).
Proof.
  unfold validate_payload, get_or_none.
  split; [|split]; intros ->; cbn [default from_option id];
    rewrite !elem_of_app.
  - left. apply list_elem_of_singleton. done.
  - right. left. by apply list_elem_of_singleton.
  - right. right. by apply list_elem_of_singleton.
Qed.

Lemma missing_field_is_reported_witness :
  "`jobs` is required and must be a non-empty array."
  ∈ validate_payload
      (JDict [("depot", JDict [("location", JList [JInt 7; JInt 43])]);
              ("vehicles", JList [JDict [("capacity", JInt 1)]])]).
Proof.
  apply (missing_field_is_reported
           [("depot", JDict [("location", JList [JInt 7; JInt 43])]);
            ("vehicles", JList [JDict [("capacity", JInt 1)]])]).
  reflexivity.
Defined.

Lemma elem_of_flat_map_enumerate {A B : Type} (f : Z -> A -> list B)
    start items (y : B) :
  y ∈ flat_map (fun ix => f (fst ix) (snd ix)) (enumerate start items)
  <-> exists (k : nat) x, items !! k = Some x /\ y ∈ f (start + Z.of_nat k)%Z x.
Proof.
  revert start. induction items as [|x rest IH]; intros start; simpl.
  - split; [by intros ?%elem_of_nil | by intros (k & ? & ? & _)].
  - rewrite elem_of_app, IH. split.
    + intros [H|(k & x' & Hk & H)].
      * exists 0%nat, x. by rewrite Z.add_0_r.
      * exists (S k), x'. split; [done|].
        by replace (start + Z.of_nat (S k))%Z with (start + 1 + Z.of_nat k)%Z
          by lia.
    + intros ([|k] & x' & Hk & H); simpl in Hk.
      * injection Hk as <-. left. by rewrite Z.add_0_r in H.
      * right. exists k, x'. split; [done|].
        by replace (start + 1 + Z.of_nat k)%Z with (start + Z.of_nat (S k))%Z
          by lia.
Qed.

(** X3: the messages about vehicles and jobs count from 1 in input order:
    on a payload with a [depot] object and non-empty [vehicles] and [jobs]
    lists, a message is reported exactly when it is the message of the
    depot check, or a message of the vehicle at position [k] checked under
    the index [k + 1], or a message of the job at position [k] checked
    under the index [k + 1]. *)
Theorem messages_count_from_one (fields depot : list (string * json))
    (vehicles jobs : list json) (msg : string) :
  dict_get "depot" fields = Some (JDict depot) ->
  dict_get "vehicles" fields = Some (JList vehicles) -> vehicles ≠ [] ->
  dict_get "jobs" fields = Some (JList jobs) -> jobs ≠ [] ->
  msg ∈ validate_payload (JDict fields)
  <-> (msg = "`depot.location` must be [lon, lat]."
       /\ is_coord (get_or_none "location" depot) = false)
      \/ (exists (k : nat) vehicle,
            vehicles !! k = Some vehicle
            /\ msg ∈ validate_vehicle (1 + Z.of_nat k) vehicle)
      \/ (exists (k : nat) job,
            jobs !! k = Some job
            /\ msg ∈ validate_job (1 + Z.of_nat k) job).
Proof.
  intros Hd Hv Hvne Hj Hjne. unfold validate_payload, get_or_none.
  rewrite Hd, Hv, Hj. cbn [default from_option id].
  destruct vehicles as [|v vehicles]; [done|].
  destruct jobs as [|j jobs]; [done|].
  rewrite !elem_of_app, !elem_of_flat_map_enumerate.
  apply or_iff_compat_r.
  destruct (is_coord (default JNull (dict_get "location" depot))); simpl.
  - split; [intros H; by apply elem_of_nil in H | by intros [_ ?]].
  - rewrite list_elem_of_singleton. split; [by intros -> | by intros [-> _]].
Qed.

Lemma messages_count_from_one_witness :
  "`vehicles[2].capacity` must be a positive integer."
  ∈ validate_payload
      (JDict [("depot", JDict [("location", JList [JInt 7; JInt 43])]);
              ("vehicles", JList [JDict [("capacity", JInt 1)];
                                  JDict [("capacity", JInt 0)]]);
              ("jobs", JList [JDict [("location", JList [JInt 7; JInt 43])]])]).
Proof.
  apply (messages_count_from_one
           [("depot", JDict [("location", JList [JInt 7; JInt 43])]);
            ("vehicles", JList [JDict [("capacity", JInt 1)];
                                JDict [("capacity", JInt 0)]]);
            ("jobs", JList [JDict [("location", JList [JInt 7; JInt 43])]])]
           [("location", JList [JInt 7; JInt 43])]
           [JDict [("capacity", JInt 1)]; JDict [("capacity", JInt 0)]]
           [JDict [("location", JList [JInt 7; JInt 43])]]);
    try done.
  right. left. exists 1%nat, (JDict [("capacity", JInt 0)]).
  split; [reflexivity|]. apply list_elem_of_singleton. reflexivity.
Defined.

Lemma dict_has_set_ne key key' value fields :
  key ≠ key' -> dict_has key' (dict_set key value fields) = dict_has key' fields.
Proof. intros Hne. unfold dict_has. by rewrite dict_get_set_ne. Qed.

(** X4: the validator never looks at [id]: giving a vehicle or a job any
    [id] whatever, or changing the one it has, changes no message. *)
Theorem validator_ignores_id (idx : Z) (fields : list (string * json))
    (id : json) :
  validate_vehicle idx (JDict (dict_set "id" id fields))
  = validate_vehicle idx (JDict fields)
  /\ validate_job idx (JDict (dict_set "id" id fields))
     = validate_job idx (JDict fields).
Proof.
  unfold validate_vehicle, validate_job, get_or_none.
  by rewrite !dict_has_set_ne, !dict_get_set_ne.
Qed.

(** ** What the translation emits *)

Section TranslatorRecords.
Variable py_repr : json -> string.

Lemma translate_vehicle_inv depot_location acc m idx v acc' m' :
  translate_vehicle py_repr depot_location (acc, m) (idx, v) = Ok (acc', m') ->
  exists fields record,
    v = JDict fields /\ acc' = acc ++ [record]
    /\ m' = <[idx := external_id py_repr "vehicle-" idx fields]> m
    /\ vehicle_record depot_location idx fields record.
Proof.
  unfold translate_vehicle, external_id, vehicle_record.
  destruct v as [| | | | | |fields]; try discriminate. simpl.
  destruct (dict_get "capacity" fields) as [c|] eqn:Hc; [|discriminate].
  simpl.
  destruct (dict_get "time_window" fields) as [[| | | | | |]|] eqn:Htw; simpl;
    intros [= <- <-]; eexists _, _; (split; [reflexivity|]);
    (split; [reflexivity|]); (split; [reflexivity|]); rewrite Hc, Htw;
    by repeat split.
Qed.

Lemma translate_job_inv acc m idx v acc' m' :
  translate_job py_repr (acc, m) (idx, v) = Ok (acc', m') ->
  exists fields record,
    v = JDict fields /\ acc' = acc ++ [record]
    /\ m' = <[idx := external_id py_repr "job-" idx fields]> m
    /\ job_record idx fields record.
Proof.
  unfold translate_job, external_id, job_record.
  destruct v as [| | | | | |fields]; try discriminate. simpl.
  destruct (dict_get "location" fields) as [l|] eqn:Hl; [|discriminate].
  simpl.
  destruct (dict_get "time_windows" fields) as [[| | | | | |]|] eqn:Htws;
    simpl; intros [= <- <-]; eexists _, _; (split; [reflexivity|]);
    (split; [reflexivity|]); (split; [reflexivity|]); rewrite Hl, Htws;
    by repeat split.
Qed.

(** A loop that appends one record and files one external id per entity
    returns the records in input order and a map over the positions. *)
Lemma foldM_records
    (body : list json * gmap Z string -> Z * json
            -> result (list json * gmap Z string))
    (R : Z -> list (string * json) -> json -> Prop)
    (ext : Z -> list (string * json) -> string) :
  (forall acc m idx v acc' m',
     body (acc, m) (idx, v) = Ok (acc', m') ->
     exists fields record,
       v = JDict fields /\ acc' = acc ++ [record]
       /\ m' = <[idx := ext idx fields]> m /\ R idx fields record) ->
  forall items start acc m acc' m',
    foldM body (acc, m) (enumerate start items) = Ok (acc', m') ->
    exists records,
      acc' = acc ++ records
      /\ length records = length items
      /\ (forall (k : nat) x,
            items !! k = Some x ->
            exists fields record,
              x = JDict fields /\ records !! k = Some record
              /\ R (start + Z.of_nat k)%Z fields record
              /\ m' !! (start + Z.of_nat k)%Z
                 = Some (ext (start + Z.of_nat k)%Z fields))
      /\ (forall z, (z < start \/ start + Z.of_nat (length items) ≤ z)%Z ->
                    m' !! z = m !! z).
Proof.
  intros Hbody items.
  induction items as [|x rest IH]; intros start acc m acc' m'; simpl.
  - intros [= <- <-]. exists []. rewrite app_nil_r.
    by repeat split.
  - intros H. inv_bind H. destruct a as [acc1 m1].
    destruct (Hbody _ _ _ _ _ _ Ha) as (fields & record & -> & -> & -> & HR).
    destruct (IH _ _ _ _ _ H) as (records & -> & Hlen & Hin & Hout).
    exists (record :: records). rewrite <- app_assoc. split; [done|].
    split; [simpl; by rewrite Hlen|]. split.
    + intros [|k] x Hk; simpl in Hk.
      * injection Hk as <-. exists fields, record.
        rewrite Z.add_0_r, Hout by lia. by rewrite lookup_insert_eq.
      * destruct (Hin k x Hk) as (f & r & -> & Hr & HR' & Hm).
        exists f, r.
        by replace (start + Z.of_nat (S k))%Z with (start + 1 + Z.of_nat k)%Z
          by lia.
    + intros z Hz. rewrite Hout by lia. by rewrite lookup_insert_ne by lia.
Qed.

(** What an iteration that the loop body survives ran over: the list under
    the key, or nothing at all (the keys of an empty object, the characters
    of an empty string). *)
Lemma iterated_entities payload key entities :
  py_getitem payload key ≫= py_iter = Ok entities ->
  (forall x, x ∈ entities -> exists fields, x = JDict fields) ->
  entities = items_at key payload.
Proof.
  intros H Hdicts. inv_bind H.
  destruct payload as [| | | | | |fields]; try discriminate. simpl in Ha.
  unfold items_at. simpl.
  destruct (dict_get key fields) as [v|]; [|discriminate].
  injection Ha as <-.
  destruct v as [| | | |s|items|d]; try discriminate; injection H as <-.
  - destruct s as [|c s]; [done|].
    destruct (Hdicts (JStr (String c EmptyString))) as [? ?]; [|done].
    simpl. by left.
  - done.
  - destruct d as [|[k v] d]; [done|].
    destruct (Hdicts (JStr k)) as [? ?]; [|done]. simpl. by left.
Qed.

(** The translation, read backwards from its result. *)
Lemma build_vroom_request_inv payload vroom_request vehicle_map job_map :
  build_vroom_request py_repr payload
  = Ok (vroom_request, vehicle_map, job_map) ->
  exists depot_location vehicle_records job_records,
    field "depot" payload ≫= field "location" = Some depot_location
    /\ vroom_request = JDict [("vehicles", JList vehicle_records);
                             ("jobs", JList job_records)]
    /\ length vehicle_records = length (items_at "vehicles" payload)
    /\ length job_records = length (items_at "jobs" payload)
    /\ (forall (k : nat) x,
          items_at "vehicles" payload !! k = Some x ->
          exists fields record,
            x = JDict fields /\ vehicle_records !! k = Some record
            /\ vehicle_record depot_location (1 + Z.of_nat k) fields record
            /\ vehicle_map !! (1 + Z.of_nat k)%Z
               = Some (external_id py_repr "vehicle-" (1 + Z.of_nat k) fields))
    /\ (forall z, (z < 1 \/ 1 + Z.of_nat (length (items_at "vehicles" payload))
                            ≤ z)%Z -> vehicle_map !! z = None)
    /\ (forall (k : nat) x,
          items_at "jobs" payload !! k = Some x ->
          exists fields record,
            x = JDict fields /\ job_records !! k = Some record
            /\ job_record (1 + Z.of_nat k) fields record
            /\ job_map !! (1 + Z.of_nat k)%Z
               = Some (external_id py_repr "job-" (1 + Z.of_nat k) fields))
    /\ (forall z, (z < 1 \/ 1 + Z.of_nat (length (items_at "jobs" payload))
                            ≤ z)%Z -> job_map !! z = None).
Proof.
  unfold build_vroom_request. intros H.
  inv_bind H. rename a into depot, Ha into Hdepot.
  inv_bind H. rename a into depot_location, Ha into Hlocation.
  inv_bind H. rename a into vehicles, Ha into Hvehicles.
  inv_bind H. destruct a as [vs vm]. rename Ha into Hvs.
  inv_bind H. rename a into jobs, Ha into Hjobs.
  inv_bind H. destruct a as [js jm]. rename Ha into Hjs.
  injection H as <- <- <-.
  apply (foldM_records _ (vehicle_record depot_location)
           (external_id py_repr "vehicle-")) in Hvs
    as (vrecords & -> & Hvlen & Hvin & Hvout);
    [|apply translate_vehicle_inv].
  apply (foldM_records _ job_record (external_id py_repr "job-")) in Hjs
    as (jrecords & -> & Hjlen & Hjin & Hjout); [|apply translate_job_inv].
  apply iterated_entities in Hvehicles as ->.
  2:{ intros x (k & Hk)%list_elem_of_lookup_1.
      destruct (Hvin k x Hk) as (f & _ & -> & _). eauto. }
  apply iterated_entities in Hjobs as ->.
  2:{ intros x (k & Hk)%list_elem_of_lookup_1.
      destruct (Hjin k x Hk) as (f & _ & -> & _). eauto. }
  exists depot_location, vrecords, jrecords. simpl.
  split.
  { destruct payload as [| | | | | |fields]; try discriminate. simpl in *.
    destruct (dict_get "depot" fields) as [d|]; [|discriminate].
    injection Hdepot as ->. simpl.
    destruct depot as [| | | | | |dfields]; try discriminate. simpl in *.
    by destruct (dict_get "location" dfields); [injection Hlocation as ->|]. }
  split; [done|]. split; [done|]. split; [done|]. split; [exact Hvin|].
  split; [intros z Hz; rewrite Hvout by done; apply lookup_empty|].
  split; [exact Hjin|].
  intros z Hz. rewrite Hjout by done. apply lookup_empty.
Qed.

End TranslatorRecords.

(** X5: when the translation returns, the solver request is an object of
    two lists, [vehicles] and [jobs]; the vehicle records are as many as
    the vehicles, in input order, and the record at position [k] has the
    id [k + 1], the vehicle's capacity as a one-item list, the vehicle's
    [start] and [end] or the depot location in their place, and the
    vehicle's [time_window] only when it is there and not null. *)
Theorem solver_vehicle_records (py_repr : json -> string)
    (payload vroom_request : json) (vehicle_map job_map : gmap Z string) :
  build_vroom_request py_repr payload
  = Ok (vroom_request, vehicle_map, job_map) ->
  exists depot_location vehicle_records job_records,
    field "depot" payload ≫= field "location" = Some depot_location
    /\ vroom_request = JDict [("vehicles", JList vehicle_records);
                             ("jobs", JList job_records)]
    /\ length vehicle_records = length (items_at "vehicles" payload)
    /\ forall (k : nat) vehicle,
         items_at "vehicles" payload !! k = Some vehicle ->
         exists fields record,
           vehicle = JDict fields /\ vehicle_records !! k = Some record
           /\ vehicle_record depot_location (1 + Z.of_nat k) fields record.
Proof.
  intros (dl & vs & js & Hdl & -> & Hvlen & _ & Hvin & _)
    %build_vroom_request_inv.
  exists dl, vs, js. repeat (split; [done|]).
  intros k vehicle Hk.
  destruct (Hvin k vehicle Hk) as (fields & record & ? & ? & ? & _). eauto.
Qed.

Lemma solver_vehicle_records_witness :
  exists vroom_request vehicle_map job_map,
    build_vroom_request no_repr example_payload
    = Ok (vroom_request, vehicle_map, job_map)
    /\ length (items_at "vehicles" vroom_request) = 1%nat.
Proof.
  eexists _, _, _. split; [reflexivity|].
  destruct (solver_vehicle_records no_repr example_payload _ _ _ eq_refl)
    as (dl & vs & js & _ & Hreq & Hlen & _).
  injection Hreq as <- _. exact Hlen.
Defined.

(** X6: when the translation returns, the job records are as many as the
    jobs, in input order, and the record at position [k] has the id
    [k + 1], the job's [location], its [service] or 300 when the key is
    missing, its [demand] (1 when missing) as a one-item [delivery] list,
    and its [time_windows] only when they are there and not null. *)
Theorem solver_job_records (py_repr : json -> string)
    (payload vroom_request : json) (vehicle_map job_map : gmap Z string) :
  build_vroom_request py_repr payload
  = Ok (vroom_request, vehicle_map, job_map) ->
  length (items_at "jobs" vroom_request) = length (items_at "jobs" payload)
  /\ forall (k : nat) job,
       items_at "jobs" payload !! k = Some job ->
       exists fields record,
         job = JDict fields
         /\ items_at "jobs" vroom_request !! k = Some record
         /\ job_record (1 + Z.of_nat k) fields record.
Proof.
  intros (dl & vs & js & _ & -> & _ & Hjlen & _ & _ & Hjin & _)
    %build_vroom_request_inv.
  split; [done|]. intros k job Hk.
  destruct (Hjin k job Hk) as (fields & record & ? & ? & ? & _). eauto.
Qed.

Lemma solver_job_records_witness :
  exists vroom_request vehicle_map job_map,
    build_vroom_request no_repr example_payload
    = Ok (vroom_request, vehicle_map, job_map)
    /\ length (items_at "jobs" vroom_request) = 1%nat.
Proof.
  eexists _, _, _. split; [reflexivity|].
  by destruct (solver_job_records no_repr example_payload _ _ _ eq_refl)
    as [Hlen _].
Defined.

(** X7: when the translation returns, the vehicle map has exactly the keys
    1 to the number of vehicles and the job map exactly the keys 1 to the
    number of jobs. *)
Theorem identity_maps_cover_the_indices (py_repr : json -> string)
    (payload vroom_request : json) (vehicle_map job_map : gmap Z string) :
  build_vroom_request py_repr payload
  = Ok (vroom_request, vehicle_map, job_map) ->
  (forall z, is_Some (vehicle_map !! z)
             <-> (1 ≤ z ≤ Z.of_nat (length (items_at "vehicles" payload)))%Z)
  /\ (forall z, is_Some (job_map !! z)
                <-> (1 ≤ z ≤ Z.of_nat (length (items_at "jobs" payload)))%Z).
Proof.
  intros (dl & vs & js & _ & _ & _ & _ & Hvin & Hvout & Hjin & Hjout)
    %build_vroom_request_inv.
  split; intros z; split.
  - intros [ext Hz].
    destruct (decide (1 ≤ z ≤ Z.of_nat (length (items_at "vehicles" payload)))%Z)
      as [|Hout]; [done|].
    rewrite Hvout in Hz by lia. done.
  - intros Hz.
    destruct (lookup_lt_is_Some_2 (items_at "vehicles" payload)
                (Z.to_nat (z - 1))) as [x Hx]; [lia|].
    destruct (Hvin _ _ Hx) as (? & ? & _ & _ & _ & Hm).
    replace (1 + Z.of_nat (Z.to_nat (z - 1)))%Z with z in Hm by lia. eauto.
  - intros [ext Hz].
    destruct (decide (1 ≤ z ≤ Z.of_nat (length (items_at "jobs" payload)))%Z)
      as [|Hout]; [done|].
    rewrite Hjout in Hz by lia. done.
  - intros Hz.
    destruct (lookup_lt_is_Some_2 (items_at "jobs" payload)
                (Z.to_nat (z - 1))) as [x Hx]; [lia|].
    destruct (Hjin _ _ Hx) as (? & ? & _ & _ & _ & Hm).
    replace (1 + Z.of_nat (Z.to_nat (z - 1)))%Z with z in Hm by lia. eauto.
Qed.

Lemma identity_maps_cover_the_indices_witness :
  exists vroom_request vehicle_map job_map,
    build_vroom_request no_repr example_payload
    = Ok (vroom_request, vehicle_map, job_map)
    /\ vehicle_map !! 2%Z = None.
Proof.
  eexists _, _, _. split; [reflexivity|].
  destruct (identity_maps_cover_the_indices no_repr example_payload
              _ _ _ eq_refl) as [Hvm _].
  apply eq_None_not_Some. intros H%Hvm. simpl in H. lia.
Defined.

(** ** The reconciler, again *)

Lemma dict_set_same key value fields :
  dict_get key fields = Some value -> dict_set key value fields = fields.
Proof.
  induction fields as [|[k v] rest IH]; simpl; [done|].
  destruct (decide (k = key)) as [->|Hk]; intros H.
  - by inversion H.
  - by rewrite IH.
Qed.

Lemma annotate_inv key tag ids entry entry' :
  annotate key tag ids entry = Ok entry' ->
  exists fields,
    entry = JDict fields
    /\ ((map_find (get_or_none key fields) ids = Ok None /\ entry' = entry)
        \/ exists external,
             map_find (get_or_none key fields) ids = Ok (Some external)
             /\ entry' = JDict (dict_set tag (JStr external) fields)).
Proof.
  unfold annotate, get_or_none.
  destruct entry as [| | | | | |fields]; try discriminate. simpl.
  destruct (map_find (default JNull (dict_get key fields)) ids)
    as [[external|]|] eqn:Hfound; simpl; try discriminate; intros [= <-];
    exists fields; (split; [done|]).
  - right. by exists external.
  - by left.
Qed.

(** Annotating an entry whose index and annotation are those of an entry
    already annotated changes nothing. *)
Lemma annotate_stable key tag ids entry1 entry2 :
  annotate key tag ids entry1 = Ok entry1 ->
  (exists fields, entry2 = JDict fields) ->
  field key entry2 = field key entry1 ->
  field tag entry2 = field tag entry1 ->
  annotate key tag ids entry2 = Ok entry2.
Proof.
  intros H1 [fields2 ->] Hkey Htag.
  destruct (annotate_inv _ _ _ _ _ H1) as (fields1 & -> & Hcase).
  simpl in Hkey, Htag.
  unfold annotate, get_or_none in *. simpl. rewrite Hkey.
  destruct Hcase as [[-> _]|(external & -> & [= E])]; [done|]. simpl.
  assert (dict_get tag fields1 = Some (JStr external)) as Hext
    by (rewrite E at 1; apply dict_get_set_eq).
  rewrite <- Htag in Hext. by rewrite (dict_set_same _ _ _ Hext).
Qed.

Lemma annotate_idem key tag ids entry entry' :
  key ≠ tag ->
  annotate key tag ids entry = Ok entry' ->
  annotate key tag ids entry' = Ok entry'.
Proof.
  intros Hne H.
  destruct (annotate_inv _ _ _ _ _ H) as (fields & -> & Hcase).
  destruct Hcase as [[_ ->]|(external & Hfound & ->)]; [done|].
  unfold annotate, get_or_none in *. simpl.
  rewrite dict_get_set_ne by done. rewrite Hfound. simpl.
  rewrite dict_set_same; [done|]. apply dict_get_set_eq.
Qed.

Lemma mapM_idem {A : Type} (f : A -> result A) items items' :
  (forall x y, f x = Ok y -> f y = Ok y) ->
  mapM f items = Ok items' -> mapM f items' = Ok items'.
Proof.
  intros Hf H%mapM_Forall2. apply mapM_Forall2.
  induction H as [|x y l k Hxy _ IH]; constructor; eauto.
Qed.

Lemma mapM_id {A : Type} (f : A -> result A) items items' :
  (forall x y, f x = Ok y -> y = x) ->
  mapM f items = Ok items' -> items' = items.
Proof.
  intros Hf H%mapM_Forall2.
  induction H as [|x y l k Hxy _ IH]; [done|].
  by rewrite (Hf _ _ Hxy), IH.
Qed.

Lemma for_each_in_idem key body obj obj' :
  (forall x y, body x = Ok y -> body y = Ok y) ->
  for_each_in key body obj = Ok obj' ->
  for_each_in key body obj' = Ok obj'.
Proof.
  intros Hbody. destruct obj as [| | | | | |fields]; try discriminate. simpl.
  destruct (dict_get key fields) as [[| | | |s|items|d]|] eqn:Hkey; simpl;
    try discriminate.
  - intros H. inv_bind H. injection H as <-. simpl. rewrite Hkey. simpl.
    by rewrite Ha.
  - intros H. inv_bind H. injection H as <-. simpl.
    rewrite dict_get_set_eq. rewrite (mapM_idem _ _ _ Hbody Ha). simpl.
    rewrite dict_set_same; [done|]. apply dict_get_set_eq.
  - intros H. inv_bind H. injection H as <-. simpl. rewrite Hkey. simpl.
    by rewrite Ha.
  - intros [= <-]. simpl. by rewrite Hkey.
Qed.

Lemma for_each_in_id key body obj obj' :
  (forall x y, body x = Ok y -> y = x) ->
  for_each_in key body obj = Ok obj' -> obj' = obj.
Proof.
  intros Hbody. destruct obj as [| | | | | |fields]; try discriminate. simpl.
  destruct (dict_get key fields) as [[| | | |s|items|d]|] eqn:Hkey; simpl;
    try discriminate.
  - intros H. inv_bind H. by injection H as <-.
  - intros H. inv_bind H. injection H as <-.
    rewrite (mapM_id _ _ _ Hbody Ha). by rewrite dict_set_same.
  - intros H. inv_bind H. by injection H as <-.
  - by intros [= <-].
Qed.

(** A loop that changes nothing on [obj1] changes nothing on an object
    with the same value under [key]. *)
Lemma for_each_in_transfer key body obj1 obj2 :
  for_each_in key body obj1 = Ok obj1 ->
  (exists fields, obj2 = JDict fields) ->
  field key obj2 = field key obj1 ->
  for_each_in key body obj2 = Ok obj2.
Proof.
  intros H1 [fields2 ->]. destruct obj1 as [| | | | | |fields1];
    try discriminate. simpl in *. intros Hkey2.
  destruct (dict_get key fields1) as [[| | | |s|items|d]|] eqn:Hkey;
    rewrite Hkey2; simpl in *; try discriminate.
  - inv_bind H1. by rewrite Ha.
  - inv_bind H1. injection H1 as E. rewrite Ha. simpl.
    assert (items = a) as <-.
    { assert (dict_get key fields1 = Some (JList a)) as Hget
        by (rewrite <- E at 1; apply dict_get_set_eq).
      congruence. }
    by rewrite dict_set_same.
  - inv_bind H1. by rewrite Ha.
  - done.
Qed.

Lemma annotate_route_idem vehicle_map job_map route route' :
  annotate_route vehicle_map job_map route = Ok route' ->
  annotate_route vehicle_map job_map route' = Ok route'.
Proof.
  intros H. unfold annotate_route in *. inv_bind H.
  rename a into route1, Ha into H1.
  pose proof (for_each_in_Ok _ _ _ _ H) as (_ & Hframe & _ & Hdict').
  rewrite (annotate_stable "vehicle" "vehicle_external_id" vehicle_map
             route1 route'); try done.
  - rewrite bind_Ok_l. eapply for_each_in_idem; [|exact H].
    intros x y. by apply annotate_idem.
  - by eapply annotate_idem.
  - by apply Hframe.
  - by apply Hframe.
Qed.

(** X8: reconciling is idempotent: a solution the reconciler returned is
    returned as it is when reconciled again with the same maps. *)
Theorem add_external_ids_idempotent (solution annotated : json)
    (vehicle_map job_map : gmap Z string) :
  add_external_ids solution vehicle_map job_map = Ok annotated ->
  add_external_ids annotated vehicle_map job_map = Ok annotated.
Proof.
  intros H. unfold add_external_ids in *. inv_bind H.
  rename a into solution1, Ha into H1.
  pose proof (for_each_in_Ok _ _ _ _ H) as (_ & Hframe & _ & Hdict').
  rewrite (for_each_in_transfer "routes" _ solution1 annotated); try done.
  - rewrite bind_Ok_l. eapply for_each_in_idem; [|exact H].
    intros x y. by apply annotate_idem.
  - eapply for_each_in_idem; [|exact H1].
    intros x y. apply annotate_route_idem.
  - by apply Hframe.
Qed.

Lemma add_external_ids_idempotent_witness :
  exists annotated,
    add_external_ids example_solution {[1%Z := "van"]} {[1%Z := "parcel"]}
    = Ok annotated
    /\ add_external_ids annotated {[1%Z := "van"]} {[1%Z := "parcel"]}
       = Ok annotated.
Proof.
  eexists. split; [reflexivity|].
  apply (add_external_ids_idempotent example_solution). reflexivity.
Defined.

Lemma annotate_empty key tag entry entry' :
  annotate key tag ∅ entry = Ok entry' -> entry' = entry.
Proof.
  intros (fields & -> & [[_ ->]|(external & Hfound & _)])%annotate_inv;
    [done|].
  unfold map_find in Hfound. inv_bind Hfound.
  destruct a; simpl in Hfound; [|done]. by rewrite lookup_empty in Hfound.
Qed.

(** X9: with empty identity maps the reconciler, when it returns, returns
    the solution as it was given: nothing is added anywhere. *)
Theorem add_external_ids_without_maps (solution annotated : json) :
  add_external_ids solution ∅ ∅ = Ok annotated -> annotated = solution.
Proof.
  intros H. unfold add_external_ids in H. inv_bind H.
  apply for_each_in_id in H; [|intros x y; apply annotate_empty].
  apply for_each_in_id in Ha; [congruence|].
  intros route route' Hr. unfold annotate_route in Hr. inv_bind Hr.
  apply annotate_empty in Ha0 as ->.
  apply for_each_in_id in Hr; [done|]. intros x y. apply annotate_empty.
Qed.

Lemma add_external_ids_without_maps_witness :
  add_external_ids example_solution ∅ ∅ = Ok example_solution.
Proof.
  destruct (add_external_ids example_solution ∅ ∅) as [annotated|e] eqn:E;
    [|by vm_compute in E].
  by rewrite (add_external_ids_without_maps example_solution annotated E).
Defined.

(** X10: reconciling keeps the shape of the solution and every field it
    does not write: the routes, the steps of each route and the unassigned
    entries are as many as before and in the same order; a route keeps
    every field but [vehicle_external_id] and [steps]; a step and an
    unassigned entry keep every field but [job_external_id]. *)
Theorem add_external_ids_keeps_the_rest (solution annotated : json)
    (vehicle_map job_map : gmap Z string) :
  add_external_ids solution vehicle_map job_map = Ok annotated ->
  length (items_at "routes" annotated) = length (items_at "routes" solution)
  /\ length (items_at "unassigned" annotated)
     = length (items_at "unassigned" solution)
  /\ (forall (k : nat) route route',
        items_at "routes" solution !! k = Some route ->
        items_at "routes" annotated !! k = Some route' ->
        length (items_at "steps" route') = length (items_at "steps" route)
        /\ (forall key, key ≠ "vehicle_external_id" -> key ≠ "steps" ->
                        field key route' = field key route)
        /\ (forall (s : nat) step step',
              items_at "steps" route !! s = Some step ->
              items_at "steps" route' !! s = Some step' ->
              forall key, key ≠ "job_external_id" ->
                          field key step' = field key step))
  /\ (forall (k : nat) entry entry',
        items_at "unassigned" solution !! k = Some entry ->
        items_at "unassigned" annotated !! k = Some entry' ->
        forall key, key ≠ "job_external_id" ->
                    field key entry' = field key entry).
Proof.
  intros (Hroutes & Hunassigned & _)%add_external_ids_Ok.
  split; [symmetry; by eapply Forall2_length|].
  split; [symmetry; by eapply Forall2_length|]. split.
  - intros k route route' Hk Hk'.
    pose proof (Forall2_lookup_lr _ _ _ _ _ _ Hroutes Hk Hk') as Hr.
    apply annotate_route_Ok in Hr as (route1 & H1 & Hsteps & Hframe).
    apply annotate_Ok in H1 as [_ H1].
    split; [symmetry; by eapply Forall2_length|]. split.
    + intros key Hk1 Hk2. rewrite Hframe by done. by apply H1.
    + intros s step step' Hs Hs' key Hkey.
      pose proof (Forall2_lookup_lr _ _ _ _ _ _ Hsteps Hs Hs') as Hstep.
      apply annotate_Ok in Hstep as [_ Hstep]. by apply Hstep.
  - intros k entry entry' Hk Hk' key Hkey.
    pose proof (Forall2_lookup_lr _ _ _ _ _ _ Hunassigned Hk Hk') as He.
    apply annotate_Ok in He as [_ He]. by apply He.
Qed.

Lemma add_external_ids_keeps_the_rest_witness :
  exists annotated,
    add_external_ids example_solution {[1%Z := "van"]} {[1%Z := "parcel"]}
    = Ok annotated
    /\ length (items_at "routes" annotated) = 1%nat.
Proof.
  destruct (add_external_ids example_solution {[1%Z := "van"]}
              {[1%Z := "parcel"]}) as [annotated|e] eqn:E;
    [|by vm_compute in E].
  exists annotated. split; [done|].
  destruct (add_external_ids_keeps_the_rest example_solution annotated
              {[1%Z := "van"]} {[1%Z := "parcel"]} E) as [Hlen _].
  by rewrite Hlen.
Defined.

(** X11: an index that is in the map gets the mapped id, whatever was
    there: in a reconciled solution, a route whose [vehicle] equals a key
    [i] of the vehicle map (the integer [i], the float [i.0], or [true]
    for 1) has [vehicle_external_id] equal to the string the map holds for
    [i], and likewise a step by its [job] and an unassigned entry by its
    [id] in the job map. *)
Theorem mapped_index_is_annotated (solution annotated : json)
    (vehicle_map job_map : gmap Z string) :
  add_external_ids solution vehicle_map job_map = Ok annotated ->
  (forall (k : nat) route i external,
     items_at "routes" solution !! k = Some route ->
     int_key (default JNull (field "vehicle" route)) = Ok (Some i) ->
     vehicle_map !! i = Some external ->
     exists route',
       items_at "routes" annotated !! k = Some route'
       /\ field "vehicle_external_id" route' = Some (JStr external))
  /\ (forall (k s : nat) route step j external,
        items_at "routes" solution !! k = Some route ->
        items_at "steps" route !! s = Some step ->
        int_key (default JNull (field "job" step)) = Ok (Some j) ->
        job_map !! j = Some external ->
        exists route' step',
          items_at "routes" annotated !! k = Some route'
          /\ items_at "steps" route' !! s = Some step'
          /\ field "job_external_id" step' = Some (JStr external))
  /\ (forall (k : nat) entry j external,
        items_at "unassigned" solution !! k = Some entry ->
        int_key (default JNull (field "id" entry)) = Ok (Some j) ->
        job_map !! j = Some external ->
        exists entry',
          items_at "unassigned" annotated !! k = Some entry'
          /\ field "job_external_id" entry' = Some (JStr external)).
Proof.
  intros (Hroutes & Hunassigned & _)%add_external_ids_Ok.
  assert (Hfound : forall key tag ids entry entry' i external,
            annotate key tag ids entry = Ok entry' ->
            int_key (default JNull (field key entry)) = Ok (Some i) ->
            ids !! i = Some external ->
            field tag entry' = Some (JStr external)).
  { intros key tag ids entry entry' i external Hann Hi Hext.
    destruct (annotate_Ok _ _ _ _ _ Hann) as [[fields ->] _].
    rewrite (annotate_found key tag ids fields i external) in Hann by done.
    injection Hann as <-. simpl. apply dict_get_set_eq. }
  split; [|split].
  - intros k route i external Hk Hi Hext.
    destruct (Forall2_lookup_l _ _ _ _ _ Hroutes Hk) as (route' & Hk' & Hr).
    apply annotate_route_Ok in Hr as (route1 & H1 & _ & Hframe).
    exists route'. split; [done|]. rewrite Hframe by done. eauto.
  - intros k s route step j external Hk Hs Hj Hext.
    destruct (Forall2_lookup_l _ _ _ _ _ Hroutes Hk) as (route' & Hk' & Hr).
    apply annotate_route_Ok in Hr as (_ & _ & Hsteps & _).
    destruct (Forall2_lookup_l _ _ _ _ _ Hsteps Hs) as (step' & Hs' & Hstep).
    exists route', step'. eauto.
  - intros k entry j external Hk Hj Hext.
    destruct (Forall2_lookup_l _ _ _ _ _ Hunassigned Hk)
      as (entry' & Hk' & He).
    exists entry'. eauto.
Qed.

Lemma mapped_index_is_annotated_witness :
  let solution :=
    JDict [("unassigned", JList [JDict [("id", JFloat (FNum 1))]])] in
  exists annotated entry',
    add_external_ids solution ∅ {[1%Z := "parcel"]} = Ok annotated
    /\ items_at "unassigned" annotated !! 0%nat = Some entry'
    /\ field "job_external_id" entry' = Some (JStr "parcel").
Proof.
  intros solution.
  destruct (add_external_ids solution ∅ {[1%Z := "parcel"]})
    as [annotated|e] eqn:E; [|by vm_compute in E].
  destruct (mapped_index_is_annotated solution annotated ∅
              {[1%Z := "parcel"]} E) as (_ & _ & Hunassigned).
  destruct (Hunassigned 0%nat _ 1%Z "parcel" eq_refl eq_refl eq_refl)
    as (entry' & Hk & Hid).
  by exists annotated, entry'.
Defined.

(** ** The optimize endpoint, failure by failure *)

Lemma mapM_Raise {A B : Type} (f : A -> result B) items e :
  mapM f items = Raise e -> exists x, x ∈ items /\ f x = Raise e.
Proof.
  induction items as [|x rest IH]; simpl; [done|].
  destruct (f x) as [y|e'] eqn:Hx; simpl.
  - destruct (mapM f rest) as [ys|e'']; simpl; [done|].
    intros [= ->]. destruct IH as (x' & ? & ?); [done|].
    exists x'. split; [by right | done].
  - intros [= ->]. exists x. split; [by left | done].
Qed.

Lemma annotate_Raise key tag ids entry e :
  annotate key tag ids entry = Raise e -> reconciler_error e.
Proof.
  unfold annotate, reconciler_error.
  destruct entry as [| | | | | |fields]; simpl;
    try (intros [= <-]; by right).
  unfold map_find.
  destruct (default JNull (dict_get key fields))
    as [| | |[| | |]| | |]; simpl;
    try (intros [= <-]; by left);
    try (destruct (_ !! _); discriminate); try discriminate.
  destruct (decide _); simpl; [destruct (_ !! _)|]; discriminate.
Qed.

Lemma for_each_in_Raise key body obj e :
  (forall x e', body x = Raise e' -> reconciler_error e') ->
  for_each_in key body obj = Raise e -> reconciler_error e.
Proof.
  intros Hbody. unfold for_each_in, reconciler_error.
  destruct obj as [| | | | | |fields]; simpl;
    try (intros [= <-]; by right).
  destruct (dict_get key fields) as [[| | | |s|items|d]|]; simpl;
    try (intros [= <-]; by left); try discriminate.
  - destruct (mapM body (chars s)) as [?|e'] eqn:E; simpl; [done|].
    intros [= ->]. apply mapM_Raise in E as (x & _ & Hx). by eapply Hbody.
  - destruct (mapM body items) as [?|e'] eqn:E; simpl; [done|].
    intros [= ->]. apply mapM_Raise in E as (x & _ & Hx). by eapply Hbody.
  - destruct (mapM body _) as [?|e'] eqn:E; simpl; [done|].
    intros [= ->]. apply mapM_Raise in E as (x & _ & Hx). by eapply Hbody.
Qed.

Lemma add_external_ids_Raise solution vehicle_map job_map e :
  add_external_ids solution vehicle_map job_map = Raise e ->
  reconciler_error e.
Proof.
  unfold add_external_ids.
  destruct (for_each_in "routes" _ solution) as [solution'|e'] eqn:E; simpl.
  - apply for_each_in_Raise. intros x e'. apply annotate_Raise.
  - intros [= ->]. eapply for_each_in_Raise; [|exact E].
    intros route e'. unfold annotate_route.
    destruct (annotate "vehicle" _ _ route) as [route1|e''] eqn:E1; simpl.
    + apply for_each_in_Raise. intros x e''. apply annotate_Raise.
    + intros [= ->]. by eapply annotate_Raise.
Qed.

Lemma run_vroom_completed input_path vroom_request files stdout stderr decoded :
  strip stdout ≠ EmptyString ->
  fst (run_vroom input_path (Completed 0 stdout stderr decoded)
         vroom_request files)
  = decoded.
Proof. intros Hout. unfold run_vroom. simpl. by rewrite decide_False. Qed.

Lemma run_vroom_no_output input_path vroom_request files stdout stderr decoded :
  strip stdout = EmptyString ->
  fst (run_vroom input_path (Completed 0 stdout stderr decoded)
         vroom_request files)
  = raise RuntimeError "VROOM returned no output.".
Proof. intros Hout. unfold run_vroom. simpl. by rewrite decide_True. Qed.

(** X12: a failure of the reconciler is not answered: on an accepted
    request whose solver ends with code 0 and an output that decodes, an
    exception of [add_external_ids] (a [TypeError] or an [AttributeError],
    as for an output that is no JSON object) escapes [handle_optimize],
    whose [except] clauses name neither; no response is sent. *)
Theorem reconciler_failure_escapes (py_repr : json -> string) (req : request)
    (payload : json) (input_path : string) (files : gmap string json)
    (stdout stderr : string) (solution : json) :
  accepted req payload ->
  strip stdout ≠ EmptyString ->
  (forall vroom_request vehicle_map job_map e,
     build_vroom_request py_repr payload
     = Ok (vroom_request, vehicle_map, job_map) ->
     add_external_ids solution vehicle_map job_map = Raise e ->
     reconciler_error e
     /\ fst (handle_optimize py_repr req input_path
               (Completed 0 stdout stderr (Ok solution)) files)
        = Raise e)
  /\ ((forall fields, solution ≠ JDict fields) ->
      fst (handle_optimize py_repr req input_path
             (Completed 0 stdout stderr (Ok solution)) files)
      = raise AttributeError "object has no attribute 'get'").
Proof.
  intros Hreq Hout.
  rewrite (handle_optimize_accepted py_repr req payload) by done.
  destruct (solve_valid py_repr input_path
              (Completed 0 stdout stderr (Ok solution)) payload files)
    as (vr & vm & jm & Hbuild & ->); [apply Hreq|].
  rewrite run_vroom_completed, bind_Ok_l by done.
  split.
  - intros vr' vm' jm' e Hbuild' Hraise.
    rewrite Hbuild in Hbuild'. injection Hbuild' as <- <- <-.
    pose proof (add_external_ids_Raise _ _ _ _ Hraise) as Herr.
    split; [done|]. rewrite Hraise. unfold solver_failure.
    by destruct Herr as [-> | ->].
  - intros Hnot. destruct solution as [| | | | | |fields]; try done.
    by destruct (Hnot fields).
Qed.

Lemma reconciler_failure_escapes_witness :
  fst (handle_optimize no_repr example_request "/tmp/tmpk3v9x2.json"
         (Completed 0 "[]" EmptyString (Ok (JList []))) ∅)
  = raise AttributeError "object has no attribute 'get'".
Proof.
  apply (reconciler_failure_escapes no_repr example_request example_payload
           "/tmp/tmpk3v9x2.json" ∅ "[]" EmptyString (JList [])).
  - exact example_request_accepted.
  - discriminate.
  - discriminate.
Defined.

(** X13: on an accepted request whose solver ends with code 0 and streams
    that decode as text, an output that is empty or all white space is
    answered 502 with the details ["VROOM returned no output."]; for an
    output that is not blank, a [JSONDecodeError] of [json.loads] is
    answered 502 with the one field [error]; a [RecursionError] (an output
    nested too deep) is caught by the earlier clause for [RuntimeError]
    and answered 502 with the error text as details; a plain [ValueError]
    (a number beyond the digit limit) escapes the handler and no response
    is sent. *)
Theorem solver_output_failures (py_repr : json -> string) (req : request)
    (payload : json) (input_path : string) (files : gmap string json)
    (stdout stderr : string) (decoded : result json) :
  accepted req payload ->
  (strip stdout = EmptyString ->
   fst (handle_optimize py_repr req input_path
          (Completed 0 stdout stderr decoded) files)
   = Ok (json_response 502
           (JDict [("error", JStr "VROOM optimization failed.");
                   ("details", JStr "VROOM returned no output.")])))
  /\ (strip stdout ≠ EmptyString ->
      forall e, decoded = Raise e ->
        (class e = JSONDecodeError ->
         fst (handle_optimize py_repr req input_path
                (Completed 0 stdout stderr decoded) files)
         = Ok (json_response 502
                 (JDict [("error", JStr "VROOM returned invalid JSON.")])))
        /\ (class e = RecursionError ->
            fst (handle_optimize py_repr req input_path
                   (Completed 0 stdout stderr decoded) files)
            = Ok (json_response 502
                    (JDict [("error", JStr "VROOM optimization failed.");
                            ("details", JStr (message e))])))
        /\ (class e = ValueError ->
            fst (handle_optimize py_repr req input_path
                   (Completed 0 stdout stderr decoded) files)
            = Raise e)).
Proof.
  intros Hreq.
  rewrite (handle_optimize_accepted py_repr req payload) by done.
  destruct (solve_valid py_repr input_path
              (Completed 0 stdout stderr decoded) payload files)
    as (vr & vm & jm & _ & ->); [apply Hreq|].
  split.
  - intros Hout. by rewrite run_vroom_no_output.
  - intros Hout e ->. rewrite run_vroom_completed by done.
    unfold solver_failure. cbn [mbind result_bind].
    by repeat split; intros ->.
Qed.

Lemma solver_output_failures_witness :
  fst (handle_optimize no_repr example_request "/tmp/tmpk3v9x2.json"
         (Completed 0 newline EmptyString no_json) ∅)
  = Ok (json_response 502
          (JDict [("error", JStr "VROOM optimization failed.");
                  ("details", JStr "VROOM returned no output.")])).
Proof.
  apply (solver_output_failures no_repr example_request example_payload
           "/tmp/tmpk3v9x2.json" ∅ newline EmptyString no_json).
  - exact example_request_accepted.
  - reflexivity.
Defined.

(** X21: when a captured stream of the solver is not text in the expected
    encoding, the [UnicodeDecodeError] of [subprocess.run] escapes
    [handle_optimize] on an accepted request, whatever the exit code (no
    [except] clause names it, no response is sent), and the file written
    for the solver is removed all the same. *)
Theorem undecodable_output_escapes (py_repr : json -> string) (req : request)
    (payload : json) (input_path : string) (files : gmap string json) :
  accepted req payload ->
  files !! input_path = None ->
  handle_optimize py_repr req input_path Undecodable files
  = (raise UnicodeDecodeError "'utf-8' codec can't decode byte", files).
Proof.
  intros Hreq Hfresh.
  rewrite (handle_optimize_accepted py_repr req payload) by done.
  rewrite solve_files by done.
  destruct (solve_valid py_repr input_path Undecodable payload files)
    as (vr & vm & jm & _ & ->); [apply Hreq|].
  reflexivity.
Qed.

Lemma undecodable_output_escapes_witness :
  handle_optimize no_repr example_request "/tmp/tmpk3v9x2.json" Undecodable ∅
  = (raise UnicodeDecodeError "'utf-8' codec can't decode byte", ∅).
Proof.
  apply (undecodable_output_escapes no_repr example_request example_payload).
  - exact example_request_accepted.
  - reflexivity.
Defined.

(** X14: when the solver cannot be started, the [OSError] of
    [subprocess.run] escapes [handle_optimize] on an accepted request (no
    response is sent), and the file written for the solver is removed all
    the same. *)
Theorem solver_not_started (py_repr : json -> string) (req : request)
    (payload : json) (input_path : string) (files : gmap string json) :
  accepted req payload ->
  files !! input_path = None ->
  handle_optimize py_repr req input_path NotStarted files
  = (raise OSError "No such file or directory", files).
Proof.
  intros Hreq Hfresh.
  rewrite (handle_optimize_accepted py_repr req payload) by done.
  rewrite solve_files by done.
  destruct (solve_valid py_repr input_path NotStarted payload files)
    as (vr & vm & jm & _ & ->); [apply Hreq|].
  reflexivity.
Qed.

Lemma solver_not_started_witness :
  handle_optimize no_repr example_request "/tmp/tmpk3v9x2.json" NotStarted ∅
  = (raise OSError "No such file or directory", ∅).
Proof.
  apply (solver_not_started no_repr example_request example_payload).
  - exact example_request_accepted.
  - reflexivity.
Defined.

Lemma solver_failure_statuses e resp :
  solver_failure e = Ok resp ->
  status_code resp = 502%Z \/ status_code resp = 504%Z.
Proof.
  unfold solver_failure. destruct (class e); try discriminate;
    intros [= <-]; simpl; auto.
Qed.

(** X15: whatever the request, the solver and the scratch directory, a
    response of the optimize endpoint has one of the four statuses 200,
    400, 502 and 504. *)
Theorem optimize_statuses (py_repr : json -> string) (req : request)
    (input_path : string) (solver : solver_outcome)
    (files : gmap string json) (resp : response) :
  fst (handle_optimize py_repr req input_path solver files) = Ok resp ->
  status_code resp = 200%Z \/ status_code resp = 400%Z
  \/ status_code resp = 502%Z \/ status_code resp = 504%Z.
Proof.
  unfold handle_optimize.
  destruct (isdigit (content_length req)); simpl;
    [|intros [= <-]; simpl; auto].
  destruct (py_int (content_length req)); [|discriminate].
  destruct (decoded_body req) as [payload|e];
    [|destruct (class e); simpl; try discriminate; intros [= <-]; simpl; auto].
  destruct (validate_payload payload) as [|msg msgs];
    [|intros [= <-]; simpl; auto].
  destruct (solve py_repr input_path solver payload files)
    as [[solution|e] files']; cbn [fst].
  - destruct solution as [| | | | | |fields]; try discriminate.
    simpl. intros [= <-]. simpl. auto.
  - intros [?|?]%solver_failure_statuses; auto.
Qed.

Lemma optimize_statuses_witness :
  exists resp,
    fst (handle_optimize no_repr (Request "x" (Ok JNull))
           "/tmp/tmpk3v9x2.json" Expired ∅) = Ok resp
    /\ (status_code resp = 200%Z \/ status_code resp = 400%Z
        \/ status_code resp = 502%Z \/ status_code resp = 504%Z).
Proof.
  eexists. split; [reflexivity|].
  apply (optimize_statuses no_repr (Request "x" (Ok JNull))
           "/tmp/tmpk3v9x2.json" Expired ∅).
  reflexivity.
Defined.

(** X16: a request the validator has a message for is answered 400 with
    every message of the validator, in its order, under [issues]; the
    solver is not run and the scratch directory is not touched, whatever
    the solver would do and whatever the scratch directory holds. *)
Theorem validation_failure_response (py_repr : json -> string)
    (req : request) (payload : json) (input_path : string)
    (solver : solver_outcome) (files : gmap string json) :
  isdigit (content_length req) = true ->
  py_int (content_length req) = Ok () ->
  decoded_body req = Ok payload ->
  validate_payload payload ≠ [] ->
  handle_optimize py_repr req input_path solver files
  = (Ok (json_response 400
           (JDict [("error", JStr "Validation failed.");
                   ("issues", JList (JStr <$> validate_payload payload))])),
     files).
Proof.
  intros Hdigit Hint Hbody Hinvalid. unfold handle_optimize.
  rewrite Hdigit, Hint, Hbody. simpl.
  by destruct (validate_payload payload).
Qed.

Lemma validation_failure_response_witness :
  handle_optimize no_repr (Request "2" (Ok (JDict []))) "/tmp/tmpk3v9x2.json"
    NotStarted {["/tmp/tmpk3v9x2.json" := JNull]}
  = (Ok (json_response 400
           (JDict [("error", JStr "Validation failed.");
                   ("issues",
                    JList [JStr "`depot` is required and must be an object.";
                           JStr "`vehicles` is required and must be a non-empty array.";
                           JStr "`jobs` is required and must be a non-empty array."])])),
     {["/tmp/tmpk3v9x2.json" := JNull]}).
Proof.
  apply (validation_failure_response no_repr (Request "2" (Ok (JDict [])))
           (JDict []) "/tmp/tmpk3v9x2.json" NotStarted
           {["/tmp/tmpk3v9x2.json" := JNull]}); try reflexivity.
  discriminate.
Defined.

(** ** The health endpoint, again *)

(** X17: the health endpoint sends a response exactly when the probe ends
    in a way the handler has a branch for (an exception it catches, a
    status other than 200, or a 200 whose body is a JSON object); in every
    other case the exception of the probe escapes the handler. *)
Theorem health_responds_exactly (vroom_ready : bool) (probe : probe_outcome) :
  (exists resp, handle_health vroom_ready probe = Ok resp)
  <-> probe_handled probe.
Proof.
  split.
  - intros [resp H]. unfold handle_health in H.
    destruct probe as [e|status payload]; simpl in *.
    + unfold caught_by_health. destruct (class e); try discriminate; auto.
    + destruct (decide (status ≠ 200)) as [|Heq%dec_stable]; [by left|].
      right. destruct payload as [v|e]; simpl in H.
      * destruct v as [| | | | | |fields]; simpl in H; try discriminate.
        eauto.
      * unfold caught_by_health. destruct (class e); try discriminate; auto.
  - intros H%check_osrm_handled. unfold handle_health.
    destruct (check_osrm probe) as [[ready detail]|e]; [by eexists|].
    destruct H as (Hclass & _ & _).
    destruct Hclass as [-> | [-> | [-> | ->]]]; by eexists.
Qed.

(** ** The proxy *)

Lemma strip_prefix_Some prefix s rest :
  strip_prefix prefix s = Some rest <-> s = prefix +:+ rest.
Proof.
  revert s. induction prefix as [|a prefix IH]; intros s; simpl.
  - split; [by intros [= ->] | by intros ->].
  - destruct s as [|b s]; [split; discriminate|].
    destruct (decide (a = b)) as [->|Hne].
    + rewrite IH. split; [by intros -> | by intros [= ->]].
    + split; [discriminate | intros [= ? _]; congruence].
Qed.

Lemma string_app_assoc (a b c : string) : (a +:+ b) +:+ c = a +:+ b +:+ c.
Proof.
  induction a as [|x a IH]; [done|].
  change (String x ((a +:+ b) +:+ c) = String x (a +:+ b +:+ c)).
  by f_equal.
Qed.

Lemma string_app_nil_r (a : string) : a +:+ EmptyString = a.
Proof.
  induction a as [|x a IH]; [done|].
  change (String x (a +:+ EmptyString) = String x a). by f_equal.
Qed.

(** X18: a GET whose path starts with [/api/v1/osrm/] is answered by the
    proxy, which asks the routing engine for the path with the prefix
    [/api/v1/osrm] taken off and the parameters and the query put back:
    the prefix followed by what is asked is the path followed by its
    suffix, and what is asked starts with a slash. *)
Theorem proxied_path (parsed : parsed_url) (vroom_ready : bool)
    (probe : probe_outcome) (upstream : string -> upstream_outcome) :
  startswith (url_path parsed) "/api/v1/osrm/" = true ->
  do_GET parsed vroom_ready probe upstream
  = handle_osrm_proxy (upstream (upstream_path parsed))
  /\ "/api/v1/osrm" +:+ upstream_path parsed
     = url_path parsed +:+ url_suffix parsed
  /\ exists rest, upstream_path parsed = "/" +:+ rest.
Proof.
  intros Hstart. pose proof Hstart as Hprefix.
  unfold startswith in Hprefix.
  apply bool_decide_eq_true in Hprefix as [rest Hrest].
  apply strip_prefix_Some in Hrest.
  assert (Hremove : removeprefix (url_path parsed) "/api/v1/osrm"
                    = "/" +:+ rest).
  { unfold removeprefix. by rewrite Hrest. }
  split; [|split].
  - unfold do_GET. rewrite Hstart.
    destruct (decide (url_path parsed = "/health")) as [E|]; [|done].
    rewrite E in Hrest. discriminate.
  - unfold upstream_path, url_suffix. rewrite Hremove, Hrest.
    destruct (decide (url_params parsed = EmptyString)),
             (decide (url_query parsed = EmptyString));
      rewrite ?string_app_assoc, ?string_app_nil_r; reflexivity.
  - unfold upstream_path. rewrite Hremove.
    destruct (decide (url_params parsed = EmptyString)),
             (decide (url_query parsed = EmptyString));
      rewrite ?string_app_assoc; eauto.
Qed.

Lemma proxied_path_witness :
  let parsed := Parsed "/api/v1/osrm/route/v1/driving/7.42,43.73;7.43,43.74"
                  EmptyString "overview=false" in
  upstream_path parsed = "/route/v1/driving/7.42,43.73;7.43,43.74?overview=false"
  /\ "/api/v1/osrm" +:+ upstream_path parsed
     = url_path parsed +:+ url_suffix parsed.
Proof.
  intros parsed. split; [reflexivity|].
  apply (proxied_path parsed true (ProbeAnswered 200 (Ok JNull))
           (fun _ => Answered 200 EmptyString None)).
  reflexivity.
Defined.

(** X19: the proxy passes the routing engine's answer on as it is: when it
    replies with bytes, they are the bytes of the engine's response or of
    its non-empty error body, under the engine's status and its content
    type ([application/json] without one); it replies with a JSON document
    of its own only for an error with an empty body (under the engine's
    status) and for an unreachable engine ([URLError] or [TimeoutError],
    status 502). *)
Theorem proxy_relays (upstream : upstream_outcome) (r : reply) :
  handle_osrm_proxy upstream = Ok r ->
  match reply_body r with
  | RawBody bytes =>
      (exists content_type,
         upstream = Answered (reply_status r) bytes content_type
         /\ reply_content_type r = default "application/json" content_type)
      \/ (exists headers,
            upstream = Raised (Refused (reply_status r) bytes headers)
            /\ bytes ≠ EmptyString
            /\ reply_content_type r
               = default "application/json" (mjoin headers))
  | JsonBody document =>
      (exists headers,
         upstream = Raised (Refused (reply_status r) EmptyString headers)
         /\ document = JDict [("error", JStr "OSRM upstream returned an error.")])
      \/ (exists e,
            upstream = Raised (Failed e)
            /\ (class e = URLError \/ class e = TimeoutError)
            /\ reply_status r = 502%Z
            /\ document = JDict [("error", JStr "OSRM upstream unavailable.");
                                 ("details", JStr (message e))])
  end.
Proof.
  unfold handle_osrm_proxy.
  destruct upstream as [status bytes ct|[code bytes headers|e]]; simpl.
  - intros [= <-]. simpl. left. by exists ct.
  - intros [= <-]. simpl. destruct (decide (bytes = EmptyString)) as [->|Hne].
    + left. by exists headers.
    + right. exists headers. by destruct headers.
  - destruct (class e) eqn:Hclass; try discriminate; intros [= <-]; simpl;
      right; exists e; auto.
Qed.

Lemma proxy_relays_witness :
  exists r,
    handle_osrm_proxy (Raised (Refused 400 "{}" None)) = Ok r
    /\ reply_status r = 400%Z /\ reply_body r = RawBody "{}".
Proof.
  eexists. split; [reflexivity|].
  pose proof (proxy_relays (Raised (Refused 400 "{}" None)) _ eq_refl) as H.
  by split.
Defined.

(** ** The successful response *)

(** X20: an accepted request whose solver ends with code 0 and an output
    that decodes to a solution the reconciler accepts is answered 200 with
    the five fields [status], [summary], [routes], [unassigned] and [raw],
    in this order: [summary] is the solver's own summary, untouched, or an
    empty object when the output has none; [routes] and [unassigned] are
    those of the reconciled solution, empty lists when it has none. *)
Theorem successful_response (py_repr : json -> string) (req : request)
    (payload : json) (input_path : string) (files : gmap string json)
    (stdout stderr : string) (solution annotated vroom_request : json)
    (vehicle_map job_map : gmap Z string) :
  accepted req payload ->
  strip stdout ≠ EmptyString ->
  build_vroom_request py_repr payload
  = Ok (vroom_request, vehicle_map, job_map) ->
  add_external_ids solution vehicle_map job_map = Ok annotated ->
  fst (handle_optimize py_repr req input_path
         (Completed 0 stdout stderr (Ok solution)) files)
  = Ok (json_response 200
          (JDict [("status", JStr "ok");
                  ("summary", default (JDict []) (field "summary" solution));
                  ("routes", default (JList []) (field "routes" annotated));
                  ("unassigned",
                   default (JList []) (field "unassigned" annotated));
                  ("raw", annotated)])).
Proof.
  intros Hreq Hout Hbuild Hann.
  rewrite (handle_optimize_accepted py_repr req payload) by done.
  destruct (solve_valid py_repr input_path
              (Completed 0 stdout stderr (Ok solution)) payload files)
    as (vr & vm & jm & Hbuild' & ->); [apply Hreq|].
  rewrite Hbuild in Hbuild'. injection Hbuild' as <- <- <-.
  rewrite run_vroom_completed, bind_Ok_l, Hann by done.
  pose proof (add_external_ids_Ok _ _ _ _ Hann) as (_ & _ & Hframe).
  rewrite <- (Hframe "summary") by done.
  unfold add_external_ids in Hann. inv_bind Hann.
  apply for_each_in_Ok in Hann as (_ & _ & _ & [fields ->]).
  reflexivity.
Qed.

Lemma successful_response_witness :
  exists resp,
    fst (handle_optimize no_repr example_request "/tmp/tmpk3v9x2.json"
           (Completed 0 one_stop_stdout EmptyString (Ok one_stop_solution))
           ∅) = Ok resp
    /\ field "summary" (body resp) = Some (JDict []).
Proof.
  destruct (build_vroom_request no_repr example_payload)
    as [[[vr vm] jm]|e] eqn:Hbuild; [|by vm_compute in Hbuild].
  destruct (add_external_ids one_stop_solution vm jm)
    as [annotated|e] eqn:Hann.
  2:{ vm_compute in Hbuild. injection Hbuild as _ <- <-.
      by vm_compute in Hann. }
  eexists. split.
  - apply (successful_response no_repr example_request example_payload
             "/tmp/tmpk3v9x2.json" ∅ one_stop_stdout EmptyString
             one_stop_solution annotated vr vm jm);
      [exact example_request_accepted | discriminate | exact Hbuild
      | exact Hann].
  - reflexivity.
Defined.
